(** * sdmx.rest.common: resources, query parameters and URL construction

    A shallow embedding of [sdmx/rest/common.py]: the [Resource] and
    [QueryType] enumerations, the [Parameter] class hierarchy with its
    [handle] methods, the [PARAM] table and the abstract [URL] builder.

    Python dictionaries whose order is observable ([URL._path],
    [URL._query], the fragments returned by [handle]) are association
    lists in insertion order; the keyword-argument mapping [URL._params],
    whose order is never observed by the control flow, is a [gmap];
    Python sets of keys are [gset]s.  Exceptions are values of [exn]. *)

From Stdlib Require Import ZArith Ascii String.
From stdpp Require Import base option list strings gmap fin_maps pretty.

Local Open Scope string_scope.
Local Open Scope Z_scope.

(** ** Python values and exceptions *)

(** The scalars that travel through the keyword arguments of a query:
    [None], booleans, integers and strings. *)
Inductive PyVal : Type :=
| VNone
| VBool (b : bool)
| VInt (z : Z)
| VStr (s : string).

#[global] Instance PyVal_eq_dec : EqDecision PyVal.
Proof. solve_decision. Defined.

(** [bool] is a subclass of [int]: [True == 1] and [False == 0]. *)
Definition int_of_bool (b : bool) : Z := if b then 1 else 0.

(** [a == b] on scalars. *)
Definition py_eq (a b : PyVal) : bool :=
  match a, b with
  | VNone, VNone => true
  | VBool x, VBool y => bool_decide (x = y)
  | VBool x, VInt y | VInt y, VBool x => bool_decide (int_of_bool x = y)
  | VInt x, VInt y => bool_decide (x = y)
  | VStr x, VStr y => bool_decide (x = y)
  | _, _ => false
  end.

(** [v in values] for a set of scalars. *)
Definition py_in (v : PyVal) (values : list PyVal) : bool :=
  existsb (py_eq v) values.

(** Truth value, as tested by [value or name]. *)
Definition py_truthy (v : PyVal) : bool :=
  match v with
  | VNone => false
  | VBool b => b
  | VInt z => negb (z =? 0)
  | VStr s => negb (bool_decide (s = ""))
  end.

(** [str(v)], as used by an f-string. *)
Definition py_str (v : PyVal) : string :=
  match v with
  | VNone => "None"
  | VBool true => "True"
  | VBool false => "False"
  | VInt z => pretty z
  | VStr s => s
  end.

(** Keys of the registry [URL._all_parameters]: a plain name for a path
    parameter, a pair of a name and a query type for a query parameter. *)
Inductive QueryType : Type :=
| QT_availability
| QT_data
| QT_metadata
| QT_schema
| QT_structure
| QT_registration.

#[global] Instance QueryType_eq_dec : EqDecision QueryType.
Proof. solve_decision. Defined.

Inductive ParamKey : Type :=
| KName (name : string)
| KQuery (name : string) (query_type : QueryType).

(** The messages of the four [ValueError]s raised in the module. *)
Inductive ValueErrorMsg : Type :=
| DuplicateValues (overlap : gset string)
| CannotGiveBoth (name camelName : string)
| MustBePositiveInteger (k : string) (got : PyVal)
| UnexpectedParameters (params : gmap string PyVal).

Inductive exn : Type :=
| ValueError (msg : ValueErrorMsg)
| KeyError (key : ParamKey)
| AssertionError
| TypeError
| AttributeError (attr : string).

Inductive result (A : Type) : Type :=
| Ok (a : A)
| Raise (e : exn).
Arguments Ok {A} a.
Arguments Raise {A} e.

#[global] Instance result_ret : MRet result := λ A a, Ok a.
#[global] Instance result_bind : MBind result := λ A B k r,
  match r with
  | Ok a => k a
  | Raise e => Raise e
  end.

(** Insertion-ordered dictionaries with string keys. *)
Definition odict (V : Type) : Type := list (string * V).

Fixpoint od_get {V} (k : string) (d : odict V) : option V :=
  match d with
  | [] => None
  | (k', v) :: d' => if decide (k' = k) then Some v else od_get k d'
  end.

(** [d[k] = v]: an existing key keeps its position. *)
Fixpoint od_set {V} (k : string) (v : V) (d : odict V) : odict V :=
  match d with
  | [] => [(k, v)]
  | (k', v') :: d' =>
      if decide (k' = k) then (k, v) :: d' else (k', v') :: od_set k v d'
  end.

(** [d.update(other)]. *)
Definition od_update {V} (d other : odict V) : odict V :=
  fold_left (λ acc kv, od_set kv.1 kv.2 acc) other d.

(** ** Tables and enumerations *)

(** Mapping from [Resource] value to class name. *)
Definition CLASS_NAME : odict string :=
  [ ("dataflow", "DataflowDefinition");
    ("datastructure", "DataStructureDefinition") ].

(** Inverse of [CLASS_NAME]: [{v: k for k, v in CLASS_NAME.items()}]. *)
Definition VALUE : odict string :=
  fold_left (λ acc kv, od_set kv.2 kv.1 acc) CLASS_NAME [].

(** [d.get(k, dflt)]. *)
Definition od_get_default {V} (k : string) (dflt : V) (d : odict V) : V :=
  default dflt (od_get k d).

Module QueryType_enum.
Definition name (q : QueryType) : string :=
  match q with
  | QT_availability => "availability"
  | QT_data => "data"
  | QT_metadata => "metadata"
  | QT_schema => "schema"
  | QT_structure => "structure"
  | QT_registration => "registration"
  end.

(** Members in definition order. *)
Definition members : list QueryType :=
  [ QT_availability; QT_data; QT_metadata; QT_schema; QT_structure;
    QT_registration ].

(** [QueryType[key]]: lookup of a member by name; [None] stands for the
    [KeyError] of the enumeration. *)
Definition getitem (key : string) : option QueryType :=
  find (λ q, bool_decide (name q = key)) members.
End QueryType_enum.

Inductive Resource : Type :=
| actualconstraint
| agencyscheme
| allowedconstraint
| attachementconstraint
| availableconstraint
| categorisation
| categoryscheme
| codelist
| conceptscheme
| contentconstraint
| customtypescheme
| data
| dataconsumerscheme
| dataflow
| dataproviderscheme
| datastructure
| hierarchicalcodelist
| metadata
| metadataflow
| metadatastructure
| namepersonalisationscheme
| organisationscheme
| organisationunitscheme
| process
| provisionagreement
| reportingtaxonomy
| rulesetscheme
| schema
| structure
| structureset
| transformationscheme
| userdefinedoperatorscheme
| vtlmappingscheme.

#[global] Instance Resource_eq_dec : EqDecision Resource.
Proof. solve_decision. Defined.

Module Resource_enum.
(** The string value of a member; every member is declared
    [name = "name"], so this is also its name. *)
Definition value (r : Resource) : string :=
  match r with
  | actualconstraint => "actualconstraint"
  | agencyscheme => "agencyscheme"
  | allowedconstraint => "allowedconstraint"
  | attachementconstraint => "attachementconstraint"
  | availableconstraint => "availableconstraint"
  | categorisation => "categorisation"
  | categoryscheme => "categoryscheme"
  | codelist => "codelist"
  | conceptscheme => "conceptscheme"
  | contentconstraint => "contentconstraint"
  | customtypescheme => "customtypescheme"
  | data => "data"
  | dataconsumerscheme => "dataconsumerscheme"
  | dataflow => "dataflow"
  | dataproviderscheme => "dataproviderscheme"
  | datastructure => "datastructure"
  | hierarchicalcodelist => "hierarchicalcodelist"
  | metadata => "metadata"
  | metadataflow => "metadataflow"
  | metadatastructure => "metadatastructure"
  | namepersonalisationscheme => "namepersonalisationscheme"
  | organisationscheme => "organisationscheme"
  | organisationunitscheme => "organisationunitscheme"
  | process => "process"
  | provisionagreement => "provisionagreement"
  | reportingtaxonomy => "reportingtaxonomy"
  | rulesetscheme => "rulesetscheme"
  | schema => "schema"
  | structure => "structure"
  | structureset => "structureset"
  | transformationscheme => "transformationscheme"
  | userdefinedoperatorscheme => "userdefinedoperatorscheme"
  | vtlmappingscheme => "vtlmappingscheme"
  end.

Definition name (r : Resource) : string := value r.

(** Members in definition order. *)
Definition members : list Resource :=
  [ actualconstraint; agencyscheme; allowedconstraint;
    attachementconstraint; availableconstraint; categorisation;
    categoryscheme; codelist; conceptscheme; contentconstraint;
    customtypescheme; data; dataconsumerscheme; dataflow;
    dataproviderscheme; datastructure; hierarchicalcodelist; metadata;
    metadataflow; metadatastructure; namepersonalisationscheme;
    organisationscheme; organisationunitscheme; process;
    provisionagreement; reportingtaxonomy; rulesetscheme; schema;
    structure; structureset; transformationscheme;
    userdefinedoperatorscheme; vtlmappingscheme ].

(** [Resource[key]]. *)
Definition getitem (key : string) : option Resource :=
  find (λ r, bool_decide (name r = key)) members.

(** [Resource.from_obj(obj)], given [obj.__class__.__name__]; the
    enumeration's [KeyError] carries the key that was looked up. *)
Definition from_obj (obj_class_name : string) : result Resource :=
  let value := obj_class_name in
  let key := od_get_default value value VALUE in
  match getitem key with
  | Some r => Ok r
  | None => Raise (KeyError (KName key))
  end.

(** [Resource.class_name(value)]. *)
Definition class_name (r : Resource) : string :=
  od_get_default (value r) (value r) CLASS_NAME.

(** [Resource.describe()]. *)
Definition describe : string :=
  "{" +:+ String.concat " " (map name members) +:+ "}".
End Resource_enum.

(** ** Strings *)

Definition is_ascii_lower (c : ascii) : bool :=
  ((97 <=? N_of_ascii c) && (N_of_ascii c <=? 122))%N.

Definition is_ascii_upper (c : ascii) : bool :=
  ((65 <=? N_of_ascii c) && (N_of_ascii c <=? 90))%N.

Definition is_ascii_digit (c : ascii) : bool :=
  ((48 <=? N_of_ascii c) && (N_of_ascii c <=? 57))%N.

(** [c.upper()] and [c.lower()] on ASCII letters. *)
Definition ascii_upper (c : ascii) : ascii :=
  if is_ascii_lower c then ascii_of_N (N_of_ascii c - 32) else c.

Definition ascii_lower (c : ascii) : ascii :=
  if is_ascii_upper c then ascii_of_N (N_of_ascii c + 32) else c.

Fixpoint str_lower (s : string) : string :=
  match s with
  | EmptyString => EmptyString
  | String c s' => String (ascii_lower c) (str_lower s')
  end.

Fixpoint str_forallb (p : ascii → bool) (s : string) : bool :=
  match s with
  | EmptyString => true
  | String c s' => p c && str_forallb p s'
  end.

(** [re.sub(r"_([a-z])", lambda x: x.group(1).upper(), s)]: scanning from
    the left, every underscore directly followed by a lower-case ASCII
    letter is replaced, together with that letter, by the letter in upper
    case; the scan resumes after the letter. *)
Fixpoint camelCase (s : string) : string :=
  match s with
  | EmptyString => EmptyString
  | String c tl =>
      match tl with
      | EmptyString => String c EmptyString
      | String c' tl' =>
          if bool_decide (c = "_"%char) && is_ascii_lower c'
          then String (ascii_upper c') (camelCase tl')
          else String c (camelCase tl)
      end
  end.

(** Whether the pattern [_([a-z])] occurs in [s]. *)
Fixpoint has_underscore_lower (s : string) : bool :=
  match s with
  | EmptyString => false
  | String c tl =>
      match tl with
      | EmptyString => false
      | String c' _ =>
          (bool_decide (c = "_"%char) && is_ascii_lower c')
          || has_underscore_lower tl
      end
  end.

(** [(before, after)] where [after] starts at the first character of [s]
    satisfying [p]; [after] is empty when there is none. *)
Fixpoint break_at (p : ascii → bool) (s : string) : string * string :=
  match s with
  | EmptyString => (EmptyString, EmptyString)
  | String c s' =>
      if p c then (EmptyString, s)
      else let '(a, b) := break_at p s' in (String c a, b)
  end.

Definition str_tail (s : string) : string :=
  match s with
  | EmptyString => EmptyString
  | String _ s' => s'
  end.

(** [s.split(sep)] for a one-character separator. *)
Fixpoint str_split (sep : ascii) (s : string) : list string :=
  match s with
  | EmptyString => [EmptyString]
  | String c s' =>
      if bool_decide (c = sep) then EmptyString :: str_split sep s'
      else match str_split sep s' with
           | [] => [String c EmptyString]
           | w :: ws => String c w :: ws
           end
  end.

(** [s.split()] on runs of spaces: empty words are dropped. *)
Definition str_split_ws (s : string) : list string :=
  filter (λ w, w ≠ "") (str_split " "%char s).

(** [sep.join(l)]. *)
Definition str_join (sep : string) (l : list string) : string :=
  String.concat sep l.

(** The conversion the specification calls snake_case to lowerCamelCase:
    the first word as it is, every following word with its first letter in
    upper case, the separating underscores dropped. *)
Definition capitalize (w : string) : string :=
  match w with
  | EmptyString => EmptyString
  | String c w' => String (ascii_upper c) w'
  end.

Definition snake_case (w : string) (ws : list string) : string :=
  w +:+ String.concat "" (map (λ w, "_" +:+ w) ws).

Definition lowerCamelCase (w : string) (ws : list string) : string :=
  w +:+ String.concat "" (map capitalize ws).

(** A word of a snake_case name: no underscore inside. *)
Definition no_underscore (w : string) : bool :=
  str_forallb (λ c, negb (bool_decide (c = "_"%char))) w.

(** ** The source descriptor *)

Module Source.
(** What the module reads of a [sdmx.source.Source]: its [url], and its
    [id] when the attribute exists. *)
Record t : Type := { url : string; id : option PyVal }.
End Source.

(** [getattr(source, "id", None)]. *)
Definition getattr_id (source : Source.t) : PyVal :=
  default VNone (Source.id source).

(** ** The Parameter hierarchy *)

(** Instances of the four concrete dataclasses derived from the abstract
    class [Parameter] (a reserved word here, hence [Param]).  The fields [name],
    [values] and [default] come from [Parameter]; [camelName] is the
    attribute set by [QueryParameter.__post_init__]. *)
Inductive Param : Type :=
| PathParameter (name : string) (values : list PyVal)
    (default : option string)
| QueryParameter_obj (name : string) (values : list PyVal)
    (default : option string) (camelName : string)
| AgencyParam (name : string) (values : list PyVal)
    (default : option string)
| PositiveIntParam_obj (name : string) (values : list PyVal)
    (default : option string) (camelName : string).

(** Construction of a [QueryParameter]: the generated [__init__] stores
    the fields and runs [__post_init__]. *)
Definition QueryParameter (name : string) (values : list PyVal)
    (default : option string) : Param :=
  QueryParameter_obj name values default (camelCase name).

(** [PositiveIntParam] inherits [__post_init__]. *)
Definition PositiveIntParam (name : string) (values : list PyVal)
    (default : option string) : Param :=
  PositiveIntParam_obj name values default (camelCase name).

Definition Param_camelName (p : Param) : option string :=
  match p with
  | QueryParameter_obj _ _ _ c | PositiveIntParam_obj _ _ _ c => Some c
  | PathParameter _ _ _ | AgencyParam _ _ _ => None
  end.

Definition Param_name (p : Param) : string :=
  match p with
  | PathParameter n _ _ | QueryParameter_obj n _ _ _
  | AgencyParam n _ _ | PositiveIntParam_obj n _ _ _ => n
  end.

(** The keys a parameter may take out of the request: its name and, for
    the query parameters, its camelCase alias. *)
Definition Param_keys (p : Param) : gset string :=
  match p with
  | PathParameter n _ _ | AgencyParam n _ _ => {[ n ]}
  | QueryParameter_obj n _ _ c | PositiveIntParam_obj n _ _ c =>
      {[ n ]} ∪ {[ c ]}
  end.

Definition of_default (default : option string) : PyVal :=
  match default with
  | Some s => VStr s
  | None => VNone
  end.

(** [value in self.values or 0 == len(self.values)]. *)
Definition allowed (value : PyVal) (values : list PyVal) : bool :=
  py_in value values || bool_decide (length values = 0%nat).

(** A [handle] method mutates the dictionary it is given and then returns
    or raises: the model returns the dictionary as it is left, paired with
    the outcome. *)
Definition handled : Type := gmap string PyVal * result (odict PyVal).

(** [PathParameter.handle]. *)
Definition PathParameter_handle (name : string) (values : list PyVal)
    (default : option string) (parameters : gmap string PyVal) : handled :=
  (* value = parameters.pop(self.name, self.default) *)
  let value := from_option (λ v, v) (of_default default) (parameters !! name) in
  let parameters := delete name parameters in
  if allowed value values
  then (parameters, Ok [(name, value)])
  else (parameters, Raise AssertionError).

(** [{self.name, self.camelName} & set(parameters)]. *)
Definition present_keys (name camelName : string)
    (parameters : gmap string PyVal) : gset string :=
  ({[ name ]} ∪ {[ camelName ]}) ∩ dom parameters.

(** [QueryParameter.handle]. *)
Definition QueryParameter_handle (name : string) (values : list PyVal)
    (camelName : string) (parameters : gmap string PyVal) : handled :=
  let present := present_keys name camelName parameters in
  match elements present with
  | [] => (parameters, Ok [])
  | k :: _ =>
      if bool_decide (size present = 2%nat)
      then (parameters, Raise (ValueError (CannotGiveBoth name camelName)))
      else
        (* value = parameters.pop(present.pop()) *)
        match parameters !! k with
        | None => (parameters, Raise (KeyError (KName k)))
        | Some value =>
            let parameters := delete k parameters in
            if allowed value values
            then (parameters, Ok [(camelName, value)])
            else (parameters, Raise AssertionError)
        end
  end.

(** [parameters.setdefault(k, v)]. *)
Definition setdefault (k : string) (v : PyVal)
    (parameters : gmap string PyVal) : gmap string PyVal :=
  match parameters !! k with
  | Some _ => parameters
  | None => <[ k := v ]> parameters
  end.

(** [AgencyParam.handle(parameters, source)]; without the [source]
    argument the call itself is a [TypeError]. *)
Definition AgencyParam_handle (name : string) (values : list PyVal)
    (default : option string) (parameters : gmap string PyVal)
    (source : option Source.t) : handled :=
  match source with
  | None => (parameters, Raise TypeError)
  | Some source =>
      let parameters := setdefault name (getattr_id source) parameters in
      PathParameter_handle name values default parameters
  end.

(** [v <= n] for an integer [n]: integers and booleans compare by value,
    [None] and strings are not ordered against an [int]. *)
Definition py_le_int (v : PyVal) (n : Z) : result bool :=
  match v with
  | VInt z => Ok (z <=? n)
  | VBool b => Ok (int_of_bool b <=? n)
  | VNone | VStr _ => Raise TypeError
  end.

(** [PositiveIntParam.handle]. *)
Definition PositiveIntParam_handle (name : string) (values : list PyVal)
    (camelName : string) (parameters : gmap string PyVal) : handled :=
  let '(parameters, r) := QueryParameter_handle name values camelName parameters in
  match r with
  | Raise e => (parameters, Raise e)
  | Ok result =>
      (* k = list(result)[0] *)
      match result with
      | [] => (parameters, Ok result)
      | (k, _) :: _ =>
          match od_get k result with
          | None => (parameters, Raise (KeyError (KName k)))
          | Some v =>
              match py_le_int v 0 with
              | Raise e => (parameters, Raise e)
              | Ok true =>
                  (parameters, Raise (ValueError (MustBePositiveInteger k v)))
              | Ok false =>
                  (* result[k] = str(k) *)
                  (parameters, Ok (od_set k (VStr (py_str (VStr k))) result))
              end
          end
      end
  end.

(** [p.handle(parameters, *args)], where [args] is empty or holds the
    source. *)
Definition handle (p : Param) (parameters : gmap string PyVal)
    (source : option Source.t) : handled :=
  match p with
  | PathParameter n vs d => PathParameter_handle n vs d parameters
  | QueryParameter_obj n vs _ c => QueryParameter_handle n vs c parameters
  | AgencyParam n vs d => AgencyParam_handle n vs d parameters source
  | PositiveIntParam_obj n vs _ c => PositiveIntParam_handle n vs c parameters
  end.

(** The module-level table [PARAM]. *)
Definition PARAM : odict Param :=
  [ ("agency_id", AgencyParam "agency_id" [] None);
    ("resource_id", PathParameter "resource_id" [] (Some "all"));
    ("start_period", QueryParameter "start_period" [] None);
    ("end_period", QueryParameter "end_period" [] None);
    ("updated_after", QueryParameter "updated_after" [] None);
    ("first_n_observations", PositiveIntParam "first_n_observations" [] None);
    ("last_n_observations", PositiveIntParam "last_n_observations" [] None);
    ("dimension_at_observation",
       QueryParameter "dimension_at_observation" [] None);
    ("include_history",
       QueryParameter "include_history" [VBool true; VBool false] None);
    ("explicit_measure",
       QueryParameter "explicit_measure" [VBool true; VBool false] None);
    ("mode", QueryParameter "mode" [VStr "available"; VStr "exact"] None) ].

(** ** urllib.parse *)

(** The two standard-library functions used by [URL.join], for URLs free
    of leading whitespace, control characters and bracketed hosts (which
    the library strips or validates before splitting). *)

Definition is_scheme_char (c : ascii) : bool :=
  is_ascii_lower c || is_ascii_upper c || is_ascii_digit c
  || bool_decide (c = "+"%char) || bool_decide (c = "-"%char)
  || bool_decide (c = "."%char).

Definition is_ascii_alpha (c : ascii) : bool :=
  is_ascii_lower c || is_ascii_upper c.

Definition str_head_is (p : ascii → bool) (s : string) : bool :=
  match s with
  | EmptyString => false
  | String c _ => p c
  end.

Definition starts_with_2slash (s : string) : bool :=
  match s with
  | String "/" (String "/" _) => true
  | _ => false
  end.

(** [urlsplit(url)]: scheme, netloc, path, query, fragment. *)
Definition urlsplit (url : string) : string * string * string * string * string :=
  let '(scheme, url) :=
    let '(pre, rest) := break_at (λ c, bool_decide (c = ":"%char)) url in
    if negb (bool_decide (rest = "")) && str_head_is is_ascii_alpha pre
       && str_forallb is_scheme_char pre
    then (str_lower pre, str_tail rest)
    else ("", url) in
  let '(netloc, url) :=
    if starts_with_2slash url
    then break_at (λ c, bool_decide (c = "/"%char) || bool_decide (c = "?"%char)
                        || bool_decide (c = "#"%char))
           (str_tail (str_tail url))
    else ("", url) in
  let '(url, fragment) :=
    let '(pre, rest) := break_at (λ c, bool_decide (c = "#"%char)) url in
    (pre, str_tail rest) in
  let '(url, query) :=
    let '(pre, rest) := break_at (λ c, bool_decide (c = "?"%char)) url in
    (pre, str_tail rest) in
  (scheme, netloc, url, query, fragment).

Definition uses_netloc : list string :=
  [ ""; "ftp"; "http"; "gopher"; "nntp"; "telnet"; "imap"; "wais"; "file";
    "mms"; "https"; "shttp"; "snews"; "prospero"; "rtsp"; "rtspu"; "rsync";
    "svn"; "svn+ssh"; "sftp"; "nfs"; "git"; "git+ssh"; "ws"; "wss" ].

(** [urlunsplit((scheme, netloc, url, query, fragment))]; an absent
    component ([None]) is the empty string. *)
Definition urlunsplit (scheme netloc url query fragment : string) : string :=
  let url :=
    if negb (bool_decide (netloc = ""))
       || (negb (bool_decide (scheme = "")) && bool_decide (scheme ∈ uses_netloc)
           && negb (starts_with_2slash url))
    then
      let url :=
        if negb (bool_decide (url = ""))
           && negb (str_head_is (λ c, bool_decide (c = "/"%char)) url)
        then "/" +:+ url else url in
      "//" +:+ netloc +:+ url
    else url in
  let url := if bool_decide (scheme = "") then url else scheme +:+ ":" +:+ url in
  let url := if bool_decide (query = "") then url else url +:+ "?" +:+ query in
  let url := if bool_decide (fragment = "") then url else url +:+ "#" +:+ fragment in
  url.

(** ** The URL builder *)

(** The attributes of a [URL] instance. *)
Record URL : Type := mkURL {
  source : Source.t;
  resource_type : Resource;
  query_type : QueryType;
  _path : odict PyVal;
  _query : odict PyVal;
  _params : gmap string PyVal;
}.

Definition set_path (self : URL) (path : odict PyVal) : URL :=
  mkURL (source self) (resource_type self) (query_type self)
    path (_query self) (_params self).

Definition set_query (self : URL) (query : odict PyVal) : URL :=
  mkURL (source self) (resource_type self) (query_type self)
    (_path self) query (_params self).

Definition set_params (self : URL) (params : gmap string PyVal) : URL :=
  mkURL (source self) (resource_type self) (query_type self)
    (_path self) (_query self) params.

(** [URL.identify_query_type]: the value assigned to [self.query_type]. *)
Definition identify_query_type (resource_type : Resource) : QueryType :=
  match QueryType_enum.getitem (Resource_enum.name resource_type) with
  | Some q => q
  | None => QT_structure
  end.

(** What a concrete subclass of the abstract class supplies: the class
    variable [_all_parameters], the abstract method [handle_structure],
    and, possibly, handlers for the two query types the base class has no
    method for. *)
Class URLSubclass : Type := {
  _all_parameters : ParamKey → option Param;
  handle_structure : URL → result URL;
  handle_availability : option (URL → result URL);
  handle_registration : option (URL → result URL);
}.

Section URL.
Context `{URLSubclass}.

(** One iteration of the loop of [handle_path_params]. *)
Definition handle_path_param (self : URL) (name : string) : result URL :=
  match _all_parameters (KName name) with
  | None => Raise (KeyError (KName name))
  | Some p =>
      let '(params, r) := handle p (_params self) (Some (source self)) in
      fragment ← r;
      mret (set_path (set_params self params)
              (od_update (_path self) fragment))
  end.

Definition handle_path_params (self : URL) (expr : string) : result URL :=
  foldl (λ acc name, self ← acc; handle_path_param self name)
    (Ok self) (str_split "/"%char expr).

(** One iteration of the loop of [handle_query_params]. *)
Definition handle_query_param (self : URL) (name : string) : result URL :=
  match _all_parameters (KQuery name (query_type self)) with
  | None => Raise (KeyError (KQuery name (query_type self)))
  | Some p =>
      let '(params, r) := handle p (_params self) None in
      fragment ← r;
      mret (set_query (set_params self params)
              (od_update (_query self) fragment))
  end.

Definition handle_query_params (self : URL) (expr : string) : result URL :=
  foldl (λ acc name, self ← acc; handle_query_param self name)
    (Ok self) (str_split_ws expr).

Definition handle_data (self : URL) : result URL :=
  let self :=
    set_path self
      (od_update (_path self)
         [(Resource_enum.name (resource_type self), VNone)]) in
  (* self._path["flow_ref"] = self._params.pop("resource_id") *)
  match _params self !! "resource_id" with
  | None => Raise (KeyError (KName "resource_id"))
  | Some v =>
      let self :=
        set_path (set_params self (delete "resource_id" (_params self)))
          (od_set "flow_ref" v (_path self)) in
      match _params self !! "key" with
      | Some key =>
          mret (set_path (set_params self (delete "key" (_params self)))
                  (od_set "key" key (_path self)))
      | None => mret self
      end
  end.

Definition handle_metadata : URL → result URL := handle_data.

Definition handle_schema (self : URL) : result URL :=
  let self :=
    set_path self
      (od_update (_path self)
         [(Resource_enum.name (resource_type self), VNone)]) in
  handle_path_params self "context/agency_id/resource_id/version".

(** [getattr(self, f"handle_{self.query_type.name}")()]. *)
Definition dispatch (self : URL) : result URL :=
  match query_type self with
  | QT_data => handle_data self
  | QT_metadata => handle_metadata self
  | QT_schema => handle_schema self
  | QT_structure => handle_structure self
  | QT_availability =>
      match handle_availability with
      | Some h => h self
      | None => Raise (AttributeError "handle_availability")
      end
  | QT_registration =>
      match handle_registration with
      | Some h => h self
      | None => Raise (AttributeError "handle_registration")
      end
  end.

(** [URL.__init__(source, resource_type, **kwargs)].  The keyword
    [params], which the constructor pops from [kwargs], is the separate
    argument [params_dict] ([None] when it is not given); [kwargs] holds
    the other keywords. *)
Definition URL_init (source : Source.t) (resource_type : Resource)
    (kwargs : gmap string PyVal)
    (params_dict : option (gmap string PyVal)) : result URL :=
  let params := kwargs in
  let params_dict := default ∅ params_dict in
  let overlap : gset string := dom params ∩ dom params_dict in
  if negb (bool_decide (overlap = ∅))
  then Raise (ValueError (DuplicateValues overlap))
  else
    let params := params_dict ∪ params in
    let self :=
      mkURL source resource_type (identify_query_type resource_type)
        [] [] params in
    self ← dispatch self;
    if negb (bool_decide (size (_params self) = 0%nat))
    then Raise (ValueError (UnexpectedParameters (_params self)))
    else mret self.

(** The keys that the parameters registered under [names] may take. *)
Definition registered_keys (names : list string) : gset string :=
  ⋃ (map (λ name, match _all_parameters (KName name) with
                  | Some p => Param_keys p
                  | None => ∅
                  end) names).

(** The keys that the handlers defined in the class itself may take out
    of the request, per query type. *)
Definition own_handler_keys (q : QueryType) : option (gset string) :=
  match q with
  | QT_data | QT_metadata => Some ({[ "resource_id" ]} ∪ {[ "key" ]})
  | QT_schema =>
      Some (registered_keys (str_split "/"%char
                               "context/agency_id/resource_id/version"))
  | QT_structure | QT_availability | QT_registration => None
  end.
End URL.

(** A path segment of [join]: [value or name], which [str.join] accepts
    only if it is a string. *)
Definition path_segment (name : string) (value : PyVal) : result string :=
  if py_truthy value
  then match value with
       | VStr s => Ok s
       | _ => Raise TypeError
       end
  else Ok name.

Fixpoint path_segments (path : odict PyVal) : result (list string) :=
  match path with
  | [] => Ok []
  | (name, value) :: path' =>
      seg ← path_segment name value;
      segs ← path_segments path';
      mret (seg :: segs)
  end.

(** [URL.join]. *)
Definition join (self : URL) : result string :=
  let '(scheme, netloc, path, _, _) := urlsplit (Source.url (source self)) in
  segs ← path_segments (_path self);
  let path := str_join "/" (path :: segs) in
  let query :=
    str_join "&" (map (λ kv, kv.1 +:+ "=" +:+ py_str kv.2) (_query self)) in
  mret (urlunsplit scheme netloc path query "").

(** The least concrete subclass: the registry is [PARAM], under the plain
    name for path parameters and under the name and any query type for
    query parameters; [handle_structure] has the body of the abstract
    method ([pass]); no further handlers. *)
Definition minimal_URL : URLSubclass := {|
  _all_parameters := λ key,
    match key with
    | KName name | KQuery name _ => od_get name PARAM
    end;
  handle_structure := λ self, Ok self;
  handle_availability := None;
  handle_registration := None;
|}.

Definition example_source (id : option PyVal) : Source.t :=
  {| Source.url := "https://example.org/sdmx"; Source.id := id |}.

(** A registry for schema queries: [PARAM] and two unconstrained path
    parameters for the names [context] and [version], which [PARAM] does
    not hold. *)
Definition schema_URL : URLSubclass := {|
  _all_parameters := λ key,
    match key with
    | KName name | KQuery name _ =>
        od_get name
          (app PARAM [ ("context", PathParameter "context" [] None);
                       ("version", PathParameter "version" [] None) ])
    end;
  handle_structure := λ self, Ok self;
  handle_availability := None;
  handle_registration := None;
|}.

(** The two classes whose [handle] is (or ends in) [PathParameter.handle]. *)
Definition is_path_class (p : Param) : bool :=
  match p with
  | PathParameter _ _ _ | AgencyParam _ _ _ => true
  | QueryParameter_obj _ _ _ _ | PositiveIntParam_obj _ _ _ _ => false
  end.

(** The key under which a parameter returns its value: the name for the
    path classes, [camelName] for the query classes. *)
Definition Param_out_key (p : Param) : string :=
  default (Param_name p) (Param_camelName p).


Definition od_keys {V} (d : odict V) : list string := map fst d.

(** * Properties *)

(** ** Enumerations and tables *)

Lemma getitem_name (r : Resource) :
  Resource_enum.getitem (Resource_enum.name r) = Some r.
Proof. destruct r; vm_compute; reflexivity. Qed.

Lemma getitem_Some (s : string) (r : Resource) :
  Resource_enum.getitem s = Some r → Resource_enum.name r = s.
Proof.
  unfold Resource_enum.getitem. intros Hf.
  apply find_some in Hf as [_ Hb].
  by apply bool_decide_eq_true in Hb.
Qed.

Lemma getitem_None (s : string) :
  Resource_enum.getitem s = None ↔ ∀ r, Resource_enum.name r ≠ s.
Proof.
  split.
  - intros Hn r Hr. subst s. rewrite getitem_name in Hn. discriminate.
  - intros Hall. destruct (Resource_enum.getitem s) as [r|] eqn:E; [|done].
    apply getitem_Some in E. by destruct (Hall r).
Qed.

Lemma QueryType_getitem_name (q : QueryType) :
  QueryType_enum.getitem (QueryType_enum.name q) = Some q.
Proof. destruct q; vm_compute; reflexivity. Qed.

Lemma QueryType_getitem_None (s : string) :
  (∀ q, QueryType_enum.name q ≠ s) → QueryType_enum.getitem s = None.
Proof.
  intros Hall. unfold QueryType_enum.getitem.
  destruct (find _ _) as [q|] eqn:E; [|done].
  apply find_some in E as [_ Hb]. apply bool_decide_eq_true in Hb.
  by destruct (Hall q).
Qed.

(** C1: the query type derived for a resource is the [QueryType] member
    of the same name when there is one, and [QueryType.structure]
    otherwise; the derivation is a total function on [Resource] (it has no
    failing outcome), and its values are [data], [metadata], [schema] and
    [structure]. *)
Theorem identify_query_type_by_name (R : Resource) :
  (∀ q, QueryType_enum.name q = Resource_enum.name R →
        identify_query_type R = q) ∧
  ((∀ q, QueryType_enum.name q ≠ Resource_enum.name R) →
        identify_query_type R = QT_structure) ∧
  (∃ q, identify_query_type R = q ∧
        q ∈ [QT_data; QT_metadata; QT_schema; QT_structure]).
Proof.
  unfold identify_query_type. split; [|split].
  - intros q Hq. rewrite <- Hq, QueryType_getitem_name. reflexivity.
  - intros Hall. by rewrite QueryType_getitem_None.
  - eexists. split; [reflexivity|].
    destruct R; vm_compute; set_solver.
Qed.

Lemma identify_query_type_by_name_witness :
  identify_query_type data = QT_data ∧
  identify_query_type dataflow = QT_structure.
Proof.
  split.
  - apply (proj1 (identify_query_type_by_name data)). reflexivity.
  - apply (proj1 (proj2 (identify_query_type_by_name dataflow))).
    intros q; destruct q; vm_compute; discriminate.
Defined.

Lemma VALUE_eq :
  VALUE = [ ("DataflowDefinition", "dataflow");
            ("DataStructureDefinition", "datastructure") ].
Proof. reflexivity. Qed.

Lemma value_lowercase (r : Resource) :
  str_forallb is_ascii_lower (Resource_enum.value r) = true.
Proof. destruct r; vm_compute; reflexivity. Qed.

(** C7: [Resource.class_name] is total: every member yields a non-empty
    string; [dataflow] and [datastructure] yield the names recorded in
    [CLASS_NAME]; every other member yields its own string value, which is
    in lower case. *)
Theorem class_name_total (r : Resource) :
  Resource_enum.class_name r ≠ "" ∧
  Resource_enum.class_name dataflow = "DataflowDefinition" ∧
  Resource_enum.class_name datastructure = "DataStructureDefinition" ∧
  (∀ c, od_get (Resource_enum.value r) CLASS_NAME = Some c →
        Resource_enum.class_name r = c) ∧
  (r ≠ dataflow → r ≠ datastructure →
     Resource_enum.class_name r = Resource_enum.value r ∧
     str_forallb is_ascii_lower (Resource_enum.class_name r) = true).
Proof.
  split; [by destruct r|].
  split; [reflexivity|]. split; [reflexivity|]. split.
  - intros c Hc. unfold Resource_enum.class_name, od_get_default.
    by rewrite Hc.
  - intros H1 H2.
    assert (Resource_enum.class_name r = Resource_enum.value r) as E
      by (by destruct r).
    split; [exact E|]. rewrite E. apply value_lowercase.
Qed.

Lemma class_name_total_witness :
  Resource_enum.class_name codelist = "codelist" ∧
  Resource_enum.class_name dataflow = "DataflowDefinition".
Proof.
  split.
  - apply (proj2 (proj2 (proj2 (proj2 (class_name_total codelist)))));
      discriminate.
  - apply (proj1 (proj2 (proj2 (proj2 (class_name_total dataflow))))).
    reflexivity.
Defined.

Lemma from_obj_cases (s : string) :
  Resource_enum.from_obj s =
    match od_get s VALUE with
    | Some key => match Resource_enum.getitem key with
                  | Some r => Ok r
                  | None => Raise (KeyError (KName key))
                  end
    | None => match Resource_enum.getitem s with
              | Some r => Ok r
              | None => Raise (KeyError (KName s))
              end
    end.
Proof.
  unfold Resource_enum.from_obj, od_get_default.
  by destruct (od_get s VALUE).
Qed.

Lemma VALUE_values_are_members (s key : string) :
  od_get s VALUE = Some key → ∃ r, Resource_enum.getitem key = Some r.
Proof.
  rewrite VALUE_eq. simpl. repeat case_decide; intros; simplify_eq.
  - by exists dataflow.
  - by exists datastructure.
Qed.

(** C8: [Resource.from_obj] inverts [Resource.class_name]: an object whose
    class is named [class_name(r)] is mapped back to [r]; [VALUE] is the
    inverse table of [CLASS_NAME]; and [from_obj] fails, with the
    enumeration's [KeyError], exactly when the class name is neither a key
    of [VALUE] nor the name of a member. *)
Theorem from_obj_class_name :
  (∀ r, Resource_enum.from_obj (Resource_enum.class_name r) = Ok r) ∧
  (∀ k v, od_get k CLASS_NAME = Some v ↔ od_get v VALUE = Some k) ∧
  (∀ s, (∃ e, Resource_enum.from_obj s = Raise e) ↔
        (od_get s VALUE = None ∧ ∀ r, Resource_enum.name r ≠ s)) ∧
  (∀ s e, Resource_enum.from_obj s = Raise e → e = KeyError (KName s)).
Proof.
  split; [by intros []|]. split.
  { intros k v. rewrite VALUE_eq. unfold CLASS_NAME. simpl.
    repeat case_decide; split; intros; simplify_eq; done. }
  split.
  - intros s. rewrite from_obj_cases. split.
    + intros [e He]. destruct (od_get s VALUE) as [key|] eqn:EV.
      * apply VALUE_values_are_members in EV as [r Hr].
        rewrite Hr in He. discriminate.
      * split; [done|]. apply getitem_None.
        by destruct (Resource_enum.getitem s).
    + intros [HV Hn]. rewrite HV. apply getitem_None in Hn. rewrite Hn.
      by eexists.
  - intros s e. rewrite from_obj_cases.
    destruct (od_get s VALUE) as [key|] eqn:EV.
    + apply VALUE_values_are_members in EV as [r Hr]. by rewrite Hr.
    + destruct (Resource_enum.getitem s); intros; by simplify_eq.
Qed.

Lemma from_obj_class_name_witness :
  Resource_enum.from_obj "Foo" = Raise (KeyError (KName "Foo")) ∧
  Resource_enum.from_obj "DataflowDefinition" = Ok dataflow.
Proof.
  destruct from_obj_class_name as (Hinv & _ & Hfail & Hkey). split.
  - destruct (proj2 (Hfail "Foo")) as [e He].
    + split; [reflexivity|]. intros r; destruct r; vm_compute; discriminate.
    + rewrite He. f_equal. exact (Hkey "Foo" e He).
  - exact (Hinv dataflow).
Defined.

(** ** camelCase names *)

Lemma camelCase_other (c : ascii) (tl : string) :
  c ≠ "_"%char → camelCase (String c tl) = String c (camelCase tl).
Proof.
  intros Hc. destruct tl as [|c' tl']; [reflexivity|].
  cbn [camelCase]. by rewrite bool_decide_eq_false_2.
Qed.

Lemma camelCase_underscore_lower (c' : ascii) (tl' : string) :
  is_ascii_lower c' = true →
  camelCase (String "_" (String c' tl')) = String (ascii_upper c') (camelCase tl').
Proof. intros Hl. cbn [camelCase]. by rewrite bool_decide_eq_true_2, Hl. Qed.

Lemma camelCase_word (w rest : string) :
  no_underscore w = true → camelCase (w +:+ rest) = w +:+ camelCase rest.
Proof.
  induction w as [|c w IH]; [reflexivity|].
  cbn [no_underscore str_forallb]. intros [Hc Hw]%andb_true_iff.
  apply negb_true_iff, bool_decide_eq_false in Hc.
  change (String c w +:+ rest) with (String c (w +:+ rest)).
  rewrite camelCase_other by done.
  change (String c w +:+ camelCase rest) with (String c (w +:+ camelCase rest)).
  f_equal. by apply IH.
Qed.

Lemma append_cons (c : ascii) (x y : string) :
  String c x +:+ y = String c (x +:+ y).
Proof. reflexivity. Qed.

Lemma append_empty_r (x : string) : x +:+ "" = x.
Proof. induction x as [|c x IH]; [done|]. by rewrite append_cons, IH. Qed.

Lemma concat_empty_cons (x : string) (l : list string) :
  String.concat "" (x :: l) = x +:+ String.concat "" l.
Proof. destruct l; cbn [String.concat]; [by rewrite append_empty_r|done]. Qed.

Lemma camelCase_words (ws : list string) :
  Forall (λ w, no_underscore w = true ∧ str_head_is is_ascii_lower w = true) ws →
  camelCase (String.concat "" (map (λ w, "_" +:+ w) ws))
  = String.concat "" (map capitalize ws).
Proof.
  induction 1 as [|w ws [Hw Hh] _ IH]; [reflexivity|].
  cbn [map]. rewrite !concat_empty_cons.
  destruct w as [|c w]; [discriminate|].
  cbn in Hh. cbn [no_underscore str_forallb] in Hw.
  apply andb_true_iff in Hw as [_ Hw].
  change (camelCase (String "_" (String c (w +:+ String.concat "" (map (λ w, "_" +:+ w) ws))))
          = String (ascii_upper c) (w +:+ String.concat "" (map capitalize ws))).
  rewrite camelCase_underscore_lower by done.
  f_equal. rewrite camelCase_word by done. by rewrite IH.
Qed.

Lemma camelCase_snake_case (w : string) (ws : list string) :
  no_underscore w = true →
  Forall (λ w, no_underscore w = true ∧ str_head_is is_ascii_lower w = true) ws →
  camelCase (snake_case w ws) = lowerCamelCase w ws.
Proof.
  intros Hw Hws. unfold snake_case, lowerCamelCase.
  rewrite camelCase_word by done. by rewrite camelCase_words.
Qed.

Lemma camelCase_no_match (s : string) :
  has_underscore_lower s = false → camelCase s = s.
Proof.
  induction s as [|c tl IH]; [reflexivity|].
  destruct tl as [|c' tl']; [reflexivity|].
  cbn [has_underscore_lower camelCase].
  intros [Hc Htl]%orb_false_iff. rewrite Hc. f_equal. by apply IH.
Qed.

(** ** The handle methods *)

Lemma handle_Path_fst n vs d ps :
  (PathParameter_handle n vs d ps).1 = delete n ps.
Proof. unfold PathParameter_handle. by destruct (allowed _ _). Qed.

Lemma present_keys_elem n c (ps : gmap string PyVal) k :
  k ∈ present_keys n c ps ↔ (k = n ∨ k = c) ∧ is_Some (ps !! k).
Proof. unfold present_keys. rewrite <- elem_of_dom. set_solver. Qed.

Lemma handle_Query_fst n vs c ps :
  (QueryParameter_handle n vs c ps).1 = ps ∨
  ∃ k, (k = n ∨ k = c) ∧ (QueryParameter_handle n vs c ps).1 = delete k ps.
Proof.
  unfold QueryParameter_handle.
  destruct (elements (present_keys n c ps)) as [|k l] eqn:E; [by left|].
  case_bool_decide; [by left|].
  assert (k ∈ present_keys n c ps) as Hk.
  { apply elem_of_elements. rewrite E. by left. }
  apply present_keys_elem in Hk as [Hk [v Hv]]. rewrite Hv.
  right. exists k. split; [done|]. by destruct (allowed _ _).
Qed.

Lemma handle_PositiveInt_fst n vs c ps :
  (PositiveIntParam_handle n vs c ps).1 = (QueryParameter_handle n vs c ps).1.
Proof.
  unfold PositiveIntParam_handle.
  destruct (QueryParameter_handle n vs c ps) as [ps' [[|[k v0] l]|e]];
    cbn [fst]; try done.
  destruct (od_get _ _); [|done].
  destruct (py_le_int _ _) as [[]|]; done.
Qed.

Lemma delete_setdefault k v (ps : gmap string PyVal) :
  delete k (setdefault k v ps) = delete k ps.
Proof.
  unfold setdefault. destruct (ps !! k) eqn:E; [done|].
  by rewrite delete_insert_eq.
Qed.

Lemma handle_fst (p : Param) ps source :
  (handle p ps source).1 = ps ∨
  ∃ k, k ∈ Param_keys p ∧ (handle p ps source).1 = delete k ps.
Proof.
  destruct p as [n vs d|n vs d c|n vs d|n vs d c]; cbn [handle Param_keys].
  - right. exists n. split; [set_solver|]. apply handle_Path_fst.
  - destruct (handle_Query_fst n vs c ps) as [->|(k & Hk & ->)]; [by left|].
    right. exists k. split; [set_solver|done].
  - destruct source as [src|]; cbn [AgencyParam_handle]; [|by left].
    right. exists n. split; [set_solver|].
    by rewrite handle_Path_fst, delete_setdefault.
  - rewrite handle_PositiveInt_fst.
    destruct (handle_Query_fst n vs c ps) as [->|(k & Hk & ->)]; [by left|].
    right. exists k. split; [set_solver|done].
Qed.

Lemma handle_frame (p : Param) ps source k :
  k ∉ Param_keys p → (handle p ps source).1 !! k = ps !! k.
Proof.
  intros Hk. destruct (handle_fst p ps source) as [->|(k' & Hk' & ->)]; [done|].
  apply lookup_delete_ne. set_solver.
Qed.

(** C9: a [handle] call of any of the four parameter classes, whether it
    returns or raises, leaves the binding of every key other than its own
    (the name, or for the query parameters the name and the camelCase
    alias) as it was, and the only change it can make to the mapping is to
    remove a key of its own: no binding is added or altered. *)
Theorem handle_removes_only_own_keys (p : Param)
    (parameters : gmap string PyVal) (source : option Source.t) (k : string) :
  (k ∉ Param_keys p → (handle p parameters source).1 !! k = parameters !! k) ∧
  ((handle p parameters source).1 !! k = parameters !! k ∨
   (k ∈ Param_keys p ∧ (handle p parameters source).1 !! k = None)).
Proof.
  split; [apply handle_frame|].
  destruct (handle_fst p parameters source) as [->|(k' & Hk' & ->)]; [by left|].
  destruct (decide (k' = k)) as [->|Hne].
  - right. split; [done|]. apply lookup_delete_eq.
  - left. by apply lookup_delete_ne.
Qed.

Lemma handle_removes_only_own_keys_witness :
  (handle (PositiveIntParam "first_n_observations" [] None)
     {[ "first_n_observations" := VInt 0; "bogus_param" := VStr "x" ]} None).1
    !! "bogus_param" = Some (VStr "x").
Proof.
  rewrite (proj1 (handle_removes_only_own_keys _ _ _ "bogus_param")).
  - reflexivity.
  - vm_compute. set_solver.
Defined.

Lemma present_keys_empty n c (ps : gmap string PyVal) :
  ps !! n = None → ps !! c = None → present_keys n c ps = ∅.
Proof.
  intros Hn Hc. apply set_eq. intros k. rewrite present_keys_elem.
  split; [|set_solver]. intros [[->| ->] [v Hv]]; congruence.
Qed.

Lemma present_keys_one n c (ps : gmap string PyVal) k v :
  k = n ∨ k = c → ps !! k = Some v →
  (∀ k', k' = n ∨ k' = c → k' ≠ k → ps !! k' = None) →
  present_keys n c ps = {[ k ]}.
Proof.
  intros Hk Hv Hother. apply set_eq. intros k'.
  rewrite present_keys_elem, elem_of_singleton. split.
  - intros [Hk' [v' Hv']]. destruct (decide (k' = k)) as [|Hne]; [done|].
    rewrite (Hother k' Hk' Hne) in Hv'. discriminate.
  - intros ->. eauto.
Qed.

Lemma present_keys_both n c (ps : gmap string PyVal) :
  is_Some (ps !! n) → is_Some (ps !! c) → present_keys n c ps = {[ n ]} ∪ {[ c ]}.
Proof.
  intros Hn Hc. apply set_eq. intros k. rewrite present_keys_elem.
  split; [set_solver|]. intros [->%elem_of_singleton| ->%elem_of_singleton]%elem_of_union; eauto.
Qed.

Lemma handle_Query_neither n vs c (ps : gmap string PyVal) :
  ps !! n = None → ps !! c = None → QueryParameter_handle n vs c ps = (ps, Ok []).
Proof.
  intros Hn Hc. unfold QueryParameter_handle.
  by rewrite present_keys_empty, elements_empty.
Qed.

Lemma handle_Query_one n vs c (ps : gmap string PyVal) k v :
  k = n ∨ k = c → ps !! k = Some v →
  (∀ k', k' = n ∨ k' = c → k' ≠ k → ps !! k' = None) →
  QueryParameter_handle n vs c ps
  = (delete k ps,
     if allowed v vs then Ok [(c, v)] else Raise AssertionError).
Proof.
  intros Hk Hv Hother. unfold QueryParameter_handle.
  rewrite (present_keys_one n c ps k v), elements_singleton, size_singleton
    by done.
  rewrite bool_decide_eq_false_2 by lia. rewrite Hv.
  by destruct (allowed v vs).
Qed.

Lemma handle_Query_both n vs c (ps : gmap string PyVal) :
  n ≠ c → is_Some (ps !! n) → is_Some (ps !! c) →
  QueryParameter_handle n vs c ps = (ps, Raise (ValueError (CannotGiveBoth n c))).
Proof.
  intros Hne Hn Hc. unfold QueryParameter_handle.
  rewrite present_keys_both by done.
  assert (size ({[ n ]} ∪ {[ c ]} : gset string) = 2%nat) as Hsz.
  { rewrite size_union by set_solver. by rewrite !size_singleton. }
  rewrite Hsz. destruct (elements _) as [|k l] eqn:E.
  - apply elements_empty_inv in E. apply size_empty_iff in E. lia.
  - by rewrite bool_decide_eq_true_2.
Qed.

Lemma handle_Query_same n vs (ps : gmap string PyVal) e :
  (QueryParameter_handle n vs n ps).2 = Raise (ValueError e) → False.
Proof.
  unfold QueryParameter_handle.
  assert (size (present_keys n n ps) ≤ 1)%nat as Hsz.
  { etrans; [apply (subseteq_size _ {[ n ]})|by rewrite size_singleton].
    unfold present_keys. set_solver. }
  destruct (elements _) as [|k l]; [done|].
  rewrite bool_decide_eq_false_2 by lia.
  destruct (ps !! k); [|done]. by destruct (allowed _ _).
Qed.

Lemma handle_PositiveInt_one n vs c (ps : gmap string PyVal) k v :
  k = n ∨ k = c → ps !! k = Some v →
  (∀ k', k' = n ∨ k' = c → k' ≠ k → ps !! k' = None) →
  allowed v vs = true →
  PositiveIntParam_handle n vs c ps
  = (delete k ps,
     match py_le_int v 0 with
     | Raise e => Raise e
     | Ok true => Raise (ValueError (MustBePositiveInteger c v))
     | Ok false => Ok [(c, VStr c)]
     end).
Proof.
  intros Hk Hv Hother Ha. unfold PositiveIntParam_handle.
  rewrite (handle_Query_one n vs c ps k v), Ha by done.
  cbn [od_get od_set py_str]. rewrite !decide_True by done.
  by destruct (py_le_int v 0) as [[]|].
Qed.

(** C10: when the name of a [QueryParameter] has no underscore followed by
    a lower-case letter (as for the registered parameter [mode]), the
    derived [camelName] is the name itself; then at most one key of the
    request is found by [handle], and [handle] never raises the
    conflicting-alias error (nor any other [ValueError]). *)
Theorem QueryParameter_no_alias (name : string) (values : list PyVal)
    (default : option string) (parameters : gmap string PyVal)
    (source : option Source.t) :
  has_underscore_lower name = false →
  Param_camelName (QueryParameter name values default) = Some name ∧
  (size (present_keys name (camelCase name) parameters) ≤ 1)%nat ∧
  (∀ e, (handle (QueryParameter name values default) parameters source).2
        ≠ Raise (ValueError e)).
Proof.
  intros Hno. apply camelCase_no_match in Hno.
  unfold QueryParameter. cbn [Param_camelName handle]. rewrite Hno.
  split; [done|]. split.
  - etrans; [apply (subseteq_size _ {[ name ]})|by rewrite size_singleton].
    unfold present_keys. set_solver.
  - intros e He. by apply handle_Query_same in He.
Qed.

Lemma QueryParameter_no_alias_witness :
  od_get "mode" PARAM
    = Some (QueryParameter "mode" [VStr "available"; VStr "exact"] None) ∧
  Param_camelName (QueryParameter "mode" [VStr "available"; VStr "exact"] None)
    = Some "mode".
Proof.
  split; [reflexivity|].
  apply (QueryParameter_no_alias "mode" _ None ∅ None). reflexivity.
Defined.

(** C3, as the code has it: [camelName] is computed from [name] when a
    [QueryParameter] is constructed, and turns a snake_case name into
    lowerCamelCase.  On any request mapping [handle] raises the
    conflicting-alias error when the name and a camelCase alias different
    from it are both present; returns the empty fragment, leaving the
    mapping as it is, when neither is present (the default is not used);
    and, when one of the two keys is present with an allowed value and the
    other, if it is a different key, is absent, removes that key and
    returns the one-entry fragment keyed by [camelName]. *)
Theorem QueryParameter_handle_aliases (name : string) (values : list PyVal)
    (default : option string) (parameters : gmap string PyVal)
    (source : option Source.t) :
  let p := QueryParameter name values default in
  let camelName := camelCase name in
  Param_camelName p = Some camelName ∧
  (∀ w ws,
     name = snake_case w ws → no_underscore w = true →
     Forall (λ w, no_underscore w = true ∧ str_head_is is_ascii_lower w = true) ws →
     camelName = lowerCamelCase w ws) ∧
  (name ≠ camelName →
     is_Some (parameters !! name) → is_Some (parameters !! camelName) →
     handle p parameters source
     = (parameters, Raise (ValueError (CannotGiveBoth name camelName)))) ∧
  (parameters !! name = None → parameters !! camelName = None →
     handle p parameters source = (parameters, Ok [])) ∧
  (∀ k v,
     k = name ∨ k = camelName → parameters !! k = Some v →
     (∀ k', k' = name ∨ k' = camelName → k' ≠ k → parameters !! k' = None) →
     allowed v values = true →
     handle p parameters source = (delete k parameters, Ok [(camelName, v)])).
Proof.
  cbn zeta. unfold QueryParameter. cbn [Param_camelName handle].
  split; [done|]. split.
  { intros w ws -> Hw Hws. by apply camelCase_snake_case. }
  split; [apply handle_Query_both|].
  split; [apply handle_Query_neither|].
  intros k v Hk Hv Hother Ha.
  by rewrite (handle_Query_one _ _ _ _ k v), Ha.
Qed.

Lemma QueryParameter_handle_aliases_witness :
  let p := QueryParameter "start_period" [] None in
  Param_camelName p = Some "startPeriod" ∧
  (handle p {[ "start_period" := VStr "2020"; "startPeriod" := VStr "2021" ]} None).2
    = Raise (ValueError (CannotGiveBoth "start_period" "startPeriod")) ∧
  handle p {[ "start_period" := VStr "2020" ]} None
    = (∅, Ok [("startPeriod", VStr "2020")]) ∧
  handle p {[ "startPeriod" := VStr "2021" ]} None
    = (∅, Ok [("startPeriod", VStr "2021")]) ∧
  handle p {[ "end_period" := VStr "2022" ]} None
    = ({[ "end_period" := VStr "2022" ]}, Ok []).
Proof.
  cbn zeta. split; [|split; [|split; [|split]]].
  - rewrite (proj1 (QueryParameter_handle_aliases "start_period" [] None ∅ None)).
    apply (f_equal Some).
    apply (proj1 (proj2 (QueryParameter_handle_aliases
                    "start_period" [] None ∅ None)) "start" ["period"]).
    + reflexivity.
    + reflexivity.
    + repeat constructor.
  - rewrite (proj1 (proj2 (proj2 (QueryParameter_handle_aliases
               "start_period" [] None _ None)))).
    + reflexivity.
    + vm_compute. discriminate.
    + vm_compute. eauto.
    + vm_compute. eauto.
  - rewrite (proj2 (proj2 (proj2 (proj2 (QueryParameter_handle_aliases
               "start_period" [] None _ None))))
               "start_period" (VStr "2020")).
    + reflexivity.
    + by left.
    + reflexivity.
    + intros k' [->| ->] Hne; [done|reflexivity].
    + reflexivity.
  - rewrite (proj2 (proj2 (proj2 (proj2 (QueryParameter_handle_aliases
               "start_period" [] None _ None))))
               "startPeriod" (VStr "2021")).
    + reflexivity.
    + by right.
    + reflexivity.
    + intros k' [->| ->] Hne; [reflexivity|done].
    + reflexivity.
  - rewrite (proj1 (proj2 (proj2 (proj2 (QueryParameter_handle_aliases
               "start_period" [] None _ None))))); reflexivity.
Defined.

(** The registered parameter [mode] has the same name and alias: with the
    key [mode] in the request both the name and the alias are present, and
    [handle] returns a fragment instead of raising. *)
Lemma QueryParameter_mode_both_present :
  let p := QueryParameter "mode" [VStr "available"; VStr "exact"] None in
  let parameters : gmap string PyVal := {[ "mode" := VStr "exact" ]} in
  od_get "mode" PARAM = Some p ∧
  is_Some (parameters !! Param_name p) ∧
  (∃ camelName, Param_camelName p = Some camelName ∧
                is_Some (parameters !! camelName)) ∧
  handle p parameters None = (∅, Ok [("mode", VStr "exact")]) ∧
  ¬ (∃ e, (handle p parameters None).2 = Raise e).
Proof.
  cbn zeta. split; [reflexivity|]. split; [by eexists|]. split.
  - exists "mode". split; [reflexivity|by eexists].
  - split; [reflexivity|]. intros [e He]. vm_compute in He. discriminate.
Qed.

(** C4, as the code has it: for the [PositiveIntParam] named
    [first_n_observations], a supplied positive integer (such as [5])
    makes [handle] return a non-empty fragment; a supplied integer that is
    zero or negative (such as [0] or [-3]) makes it raise the
    positive-integer [ValueError]; a supplied string makes the comparison
    with [0] raise [TypeError], not that [ValueError]; and when neither
    key is in the request [handle] returns the empty fragment. *)
Theorem PositiveIntParam_handle_cases (parameters : gmap string PyVal)
    (z : Z) (s : string) :
  let p := PositiveIntParam "first_n_observations" [] None in
  parameters !! "firstNObservations" = None →
  (0 < z →
     ∃ fragment,
       handle p (<[ "first_n_observations" := VInt z ]> parameters) None
       = (delete "first_n_observations" parameters, Ok fragment) ∧
       fragment ≠ []) ∧
  (z ≤ 0 →
     handle p (<[ "first_n_observations" := VInt z ]> parameters) None
     = (delete "first_n_observations" parameters,
        Raise (ValueError (MustBePositiveInteger "firstNObservations" (VInt z))))) ∧
  handle p (<[ "first_n_observations" := VStr s ]> parameters) None
  = (delete "first_n_observations" parameters, Raise TypeError) ∧
  (parameters !! "first_n_observations" = None →
     handle p parameters None = (parameters, Ok [])).
Proof.
  cbn zeta. intros Hc.
  assert (∀ v, handle (PositiveIntParam "first_n_observations" [] None)
                 (<[ "first_n_observations" := v ]> parameters) None
               = (delete "first_n_observations" parameters,
                  match py_le_int v 0 with
                  | Raise e => Raise e
                  | Ok true =>
                      Raise (ValueError (MustBePositiveInteger "firstNObservations" v))
                  | Ok false =>
                      Ok [("firstNObservations", VStr "firstNObservations")]
                  end)) as Hone.
  { intros v. unfold PositiveIntParam. cbn [handle].
    rewrite (handle_PositiveInt_one _ _ _ _ "first_n_observations" v).
    - by rewrite delete_insert_eq.
    - by left.
    - apply lookup_insert_eq.
    - intros k' [->| ->] Hne; [done|]. by rewrite lookup_insert_ne.
    - reflexivity. }
  split; [|split; [|split]].
  - intros Hz. eexists. rewrite Hone. cbn [py_le_int].
    rewrite (proj2 (Z.leb_gt z 0)) by done. done.
  - intros Hz. rewrite Hone. cbn [py_le_int].
    by rewrite (proj2 (Z.leb_le z 0)).
  - by rewrite Hone.
  - intros Hn. unfold PositiveIntParam, handle, PositiveIntParam_handle.
    by rewrite handle_Query_neither.
Qed.

Lemma PositiveIntParam_handle_cases_witness :
  let p := PositiveIntParam "first_n_observations" [] None in
  (∃ fragment,
     handle p {[ "first_n_observations" := VInt 5 ]} None = (∅, Ok fragment) ∧
     fragment ≠ []) ∧
  handle p {[ "first_n_observations" := VInt 0 ]} None
  = (∅, Raise (ValueError (MustBePositiveInteger "firstNObservations" (VInt 0)))) ∧
  handle p {[ "first_n_observations" := VInt (-3) ]} None
  = (∅, Raise (ValueError (MustBePositiveInteger "firstNObservations" (VInt (-3))))) ∧
  handle p ∅ None = (∅, Ok []).
Proof.
  cbn zeta.
  assert ((∅ : gmap string PyVal) !! "firstNObservations" = None) as He
    by reflexivity.
  split; [|split; [|split]].
  - apply (proj1 (PositiveIntParam_handle_cases ∅ 5 "" He)). lia.
  - apply (proj1 (proj2 (PositiveIntParam_handle_cases ∅ 0 "" He))). lia.
  - apply (proj1 (proj2 (PositiveIntParam_handle_cases ∅ (-3) "" He))). lia.
  - apply (proj2 (proj2 (proj2 (PositiveIntParam_handle_cases ∅ 0 "" He)))).
    reflexivity.
Defined.

(** A non-numeric value does not reach the positive-integer check: the
    comparison of a string with [0] raises [TypeError]. *)
Lemma PositiveIntParam_string_TypeError :
  let p := PositiveIntParam "first_n_observations" [] None in
  let parameters : gmap string PyVal := {[ "first_n_observations" := VStr "abc" ]} in
  (handle p parameters None).2 = Raise TypeError ∧
  ¬ (∃ k got, (handle p parameters None).2
              = Raise (ValueError (MustBePositiveInteger k got))).
Proof.
  cbn zeta. split; [reflexivity|].
  intros (k & got & He). vm_compute in He. discriminate.
Qed.

(** C5 fails on the code: for the supplied value [5] the fragment returned
    by [PositiveIntParam.handle] maps the camelCase key to the key itself
    ([str(k)]), not to ["5"], the string form of the validated value. *)
Theorem PositiveIntParam_handle_stores_key :
  let p := PositiveIntParam "first_n_observations" [] None in
  let parameters : gmap string PyVal := {[ "first_n_observations" := VInt 5 ]} in
  py_str (VInt 5) = "5" ∧
  handle p parameters None
  = (∅, Ok [("firstNObservations", VStr "firstNObservations")]) ∧
  (handle p parameters None).2 ≠ Ok [("firstNObservations", VStr "5")].
Proof.
  cbn zeta. split; [reflexivity|]. split; [reflexivity|].
  intros He. vm_compute in He. discriminate.
Qed.

(** ** The URL builder *)

Section URL_properties.
Context `{URLSubclass}.

Lemma handle_data_frame self self' k :
  handle_data self = Ok self' → k ≠ "resource_id" → k ≠ "key" →
  _params self' !! k = _params self !! k.
Proof.
  unfold handle_data. cbn.
  destruct (_params self !! "resource_id") as [v|]; [|done].
  rewrite lookup_delete_ne by done.
  destruct (_params self !! "key") as [key|]; intros [= <-] H1 H2; cbn.
  - by rewrite !lookup_delete_ne.
  - by rewrite lookup_delete_ne.
Qed.

Lemma handle_path_param_frame self self' name k :
  handle_path_param self name = Ok self' →
  k ∉ registered_keys [name] →
  _params self' !! k = _params self !! k.
Proof.
  unfold handle_path_param, registered_keys. cbn [map union_list].
  destruct (_all_parameters (KName name)) as [p|]; [|done].
  intros Hh Hk.
  rewrite <- (handle_frame p (_params self) (Some (source self)) k)
    by set_solver.
  destruct (handle p (_params self) (Some (source self))) as [ps [frag|e]];
    [|done].
  cbn in Hh. by injection Hh as <-.
Qed.

Lemma handle_path_names_frame names r self' k :
  foldl (λ acc name, self ← acc; handle_path_param self name) r names
    = Ok self' →
  k ∉ registered_keys names →
  ∃ self, r = Ok self ∧ _params self' !! k = _params self !! k.
Proof.
  revert r. induction names as [|name names IH]; intros r; cbn [foldl].
  - intros -> _. by eexists.
  - intros Hf Hk.
    assert ((k ∉ registered_keys [name]) ∧ (k ∉ registered_keys names)) as [Hk1 Hk2].
    { unfold registered_keys in *. cbn [map union_list] in *. set_solver. }
    destruct (IH _ Hf Hk2) as (self1 & H1 & ->).
    destruct r as [self|e]; [|done]. cbn in H1.
    exists self. split; [done|]. by eapply handle_path_param_frame.
Qed.

Lemma handle_schema_frame self self' k :
  handle_schema self = Ok self' →
  k ∉ registered_keys (str_split "/"%char "context/agency_id/resource_id/version") →
  _params self' !! k = _params self !! k.
Proof.
  unfold handle_schema, handle_path_params. intros Hs Hk.
  destruct (handle_path_names_frame _ _ _ _ Hs Hk) as (self1 & [= <-] & ->).
  done.
Qed.

Lemma dispatch_own_frame self self' keys k :
  own_handler_keys (query_type self) = Some keys →
  dispatch self = Ok self' → k ∉ keys →
  _params self' !! k = _params self !! k.
Proof.
  unfold dispatch, own_handler_keys, handle_metadata.
  destruct (query_type self); intros [= <-] Hd Hk; try done.
  - apply handle_data_frame; [done|set_solver..].
  - apply handle_data_frame; [done|set_solver..].
  - by apply handle_schema_frame.
Qed.

Lemma URL_init_no_overlap source rt (kwargs : gmap string PyVal) params_dict :
  dom kwargs ∩ dom (default ∅ params_dict) = ∅ →
  URL_init source rt kwargs params_dict
  = (self ← dispatch (mkURL source rt (identify_query_type rt) [] []
                        (default ∅ params_dict ∪ kwargs));
     if negb (bool_decide (size (_params self) = 0%nat))
     then Raise (ValueError (UnexpectedParameters (_params self)))
     else mret self).
Proof.
  intros Ho. unfold URL_init. by rewrite Ho, bool_decide_eq_true_2.
Qed.

Lemma URL_init_Ok source rt (kwargs : gmap string PyVal) params_dict self :
  URL_init source rt kwargs params_dict = Ok self →
  dispatch (mkURL source rt (identify_query_type rt) [] []
              (default ∅ params_dict ∪ kwargs)) = Ok self ∧
  _params self = ∅.
Proof.
  unfold URL_init. case_bool_decide; [|done]. cbn [negb].
  destruct (dispatch _) as [self1|e]; [|done]. cbn.
  case_bool_decide as Hsz; [|done]. cbn [negb].
  intros [= ->]. split; [done|]. by apply map_size_empty_iff.
Qed.
End URL_properties.

(** C2, as the code has it: a query for the resource [data] with
    [resource_id="EXR"] against a source with base URL
    [https://example.org/sdmx] is built by the data handler, and [join]
    returns [https://example.org/sdmx/data/EXR].  The handler shared by
    data and metadata queries, on a fresh path, puts one placeholder entry
    keyed by the name of the resource type, with value [None] (rendered by
    [join] as that name), then moves [resource_id] from the request to the
    path under the key [flow_ref]; without [resource_id] it raises
    [KeyError]. *)
Theorem URL_data_EXR `{URLSubclass} (id : option PyVal) :
  (∃ self,
     URL_init (example_source id) data {[ "resource_id" := VStr "EXR" ]} None
       = Ok self ∧
     query_type self = QT_data ∧
     _path self = [("data", VNone); ("flow_ref", VStr "EXR")] ∧
     _params self = ∅ ∧
     join self = Ok "https://example.org/sdmx/data/EXR") ∧
  (∀ source rt qt query (params : gmap string PyVal),
     let self := mkURL source rt qt [] query params in
     handle_metadata = handle_data ∧
     path_segment (Resource_enum.name rt) VNone = Ok (Resource_enum.name rt) ∧
     (params !! "resource_id" = None →
        handle_data self = Raise (KeyError (KName "resource_id"))) ∧
     (∀ v, params !! "resource_id" = Some v → params !! "key" = None →
        handle_data self
        = Ok (mkURL source rt qt
                [(Resource_enum.name rt, VNone); ("flow_ref", v)] query
                (delete "resource_id" params)))).
Proof.
  split.
  - eexists. split; [vm_compute; reflexivity|]. by vm_compute.
  - intros source rt qt query params self.
    split; [reflexivity|]. split; [reflexivity|]. split.
    + intros Hn. unfold handle_data, self. cbn. by rewrite Hn.
    + intros v Hv Hk. unfold handle_data, self. cbn. rewrite Hv. cbn.
      rewrite lookup_delete_ne, Hk by done. cbn.
      by destruct (decide (Resource_enum.name rt = "flow_ref")); destruct rt.
Qed.

Lemma URL_data_EXR_witness :
  handle_data (mkURL (example_source None) metadata QT_metadata [] []
                 {[ "resource_id" := VStr "EXR" ]})
  = Ok (mkURL (example_source None) metadata QT_metadata
          [("metadata", VNone); ("flow_ref", VStr "EXR")] [] ∅).
Proof.
  rewrite (proj2 (proj2 (proj2 (proj2 (URL_data_EXR (H := minimal_URL) None)
             (example_source None) metadata QT_metadata []
             {[ "resource_id" := VStr "EXR" ]}))) (VStr "EXR")).
  - reflexivity.
  - reflexivity.
  - reflexivity.
Defined.

(** For the resource [dataflow] the derived query type is [structure], so
    the data handler is not the one that runs; and the data handler run
    for [dataflow] renders the path as [dataflow/EXR], not [data/EXR]. *)
Lemma URL_dataflow_EXR_not_data :
  let self := mkURL (example_source None) dataflow
                (identify_query_type dataflow) [] []
                {[ "resource_id" := VStr "EXR" ]} in
  query_type self = QT_structure ∧
  URL_init (H := minimal_URL) (example_source None) dataflow
    {[ "resource_id" := VStr "EXR" ]} None
  = Raise (ValueError (UnexpectedParameters {[ "resource_id" := VStr "EXR" ]})) ∧
  (self ← handle_data self; join self)
  = Ok "https://example.org/sdmx/dataflow/EXR" ∧
  ¬ (∃ self', handle_data self = Ok self' ∧
              join self' = Ok "https://example.org/sdmx/data/EXR").
Proof.
  cbn zeta. split; [reflexivity|]. split; [by vm_compute|].
  split; [by vm_compute|].
  intros (self' & Hh & Hj). vm_compute in Hh. injection Hh as <-.
  vm_compute in Hj. discriminate.
Qed.

(** C6, as the code has it: the build completes only with what the
    handler returned and only if the remaining-parameters mapping is then
    empty; when the handler of the query type returns and a keyword is
    still in the mapping, the build fails with the unexpected/unhandled
    parameters error; and for the query types whose handler is defined in
    the class (data, metadata, schema) a keyword outside the keys of that
    handler is never removed, so a build given such a keyword never
    completes (it fails with the handler's own error when the handler
    raises first). *)
Theorem URL_init_unconsumed `{URLSubclass} (source : Source.t)
    (rt : Resource) (kwargs : gmap string PyVal)
    (params_dict : option (gmap string PyVal)) (k : string) :
  let params := default ∅ params_dict ∪ kwargs in
  let self0 := mkURL source rt (identify_query_type rt) [] [] params in
  (∀ self, URL_init source rt kwargs params_dict = Ok self →
           dispatch self0 = Ok self ∧ _params self = ∅) ∧
  (dom kwargs ∩ dom (default ∅ params_dict) = ∅ →
   ∀ self', dispatch self0 = Ok self' → is_Some (_params self' !! k) →
     URL_init source rt kwargs params_dict
     = Raise (ValueError (UnexpectedParameters (_params self')))) ∧
  (∀ keys, own_handler_keys (identify_query_type rt) = Some keys →
     is_Some (params !! k) → k ∉ keys →
     ∃ e, URL_init source rt kwargs params_dict = Raise e).
Proof.
  cbn zeta.
  assert (∀ self' : URL, is_Some (_params self' !! k) →
            bool_decide (size (_params self') = 0%nat) = false) as Hsize.
  { intros self' [v Hv]. apply bool_decide_eq_false. intros Hsz.
    apply map_size_empty_iff in Hsz. rewrite Hsz in Hv. done. }
  split; [apply URL_init_Ok|]. split.
  - intros Ho self' Hd Hk. rewrite URL_init_no_overlap, Hd by done. cbn.
    by rewrite Hsize.
  - intros keys Hkeys Hk Hnotin.
    destruct (decide (dom kwargs ∩ dom (default ∅ params_dict) = ∅)) as [Ho|Ho].
    + rewrite URL_init_no_overlap by done.
      destruct (dispatch _) as [self'|e] eqn:Hd; [|by eexists].
      cbn. rewrite Hsize; [by eexists|].
      by rewrite (dispatch_own_frame
                    (mkURL source rt (identify_query_type rt) [] []
                       (default ∅ params_dict ∪ kwargs))
                    self' keys k Hkeys Hd Hnotin).
    + unfold URL_init. rewrite bool_decide_eq_false_2 by done. by eexists.
Qed.

Lemma URL_init_unconsumed_witness :
  URL_init (H := minimal_URL) (example_source None) data
    {[ "resource_id" := VStr "EXR"; "bogus_param" := VStr "x" ]} None
  = Raise (ValueError (UnexpectedParameters {[ "bogus_param" := VStr "x" ]})).
Proof.
  refine (proj1 (proj2 (URL_init_unconsumed (H := minimal_URL)
            (example_source None) data
            {[ "resource_id" := VStr "EXR"; "bogus_param" := VStr "x" ]}
            None "bogus_param"))
          _
          (mkURL (example_source None) data QT_data
             [("data", VNone); ("flow_ref", VStr "EXR")] []
             {[ "bogus_param" := VStr "x" ]}) _ _).
  - vm_compute. reflexivity.
  - vm_compute. reflexivity.
  - vm_compute. eauto.
Defined.

(** A data query given only [bogus_param="x"]: the keyword is not one the
    data handler takes, yet the build fails with the [KeyError] of the
    missing [resource_id], raised by the handler before the check for
    leftover parameters is reached. *)
Lemma URL_init_bogus_param_KeyError :
  let kwargs : gmap string PyVal := {[ "bogus_param" := VStr "x" ]} in
  identify_query_type data = QT_data ∧
  own_handler_keys (H := minimal_URL) QT_data
    = Some ({[ "resource_id" ]} ∪ {[ "key" ]}) ∧
  "bogus_param" ∉ ({[ "resource_id" ]} ∪ {[ "key" ]} : gset string) ∧
  URL_init (H := minimal_URL) (example_source None) data kwargs None
  = Raise (KeyError (KName "resource_id")) ∧
  ¬ (∃ params,
       URL_init (H := minimal_URL) (example_source None) data kwargs None
       = Raise (ValueError (UnexpectedParameters params))).
Proof.
  cbn zeta. split; [reflexivity|]. split; [reflexivity|].
  split; [set_solver|]. split; [by vm_compute|].
  intros [params He]. vm_compute in He. discriminate.
Qed.

(** * Further properties of the module *)

(** ** camelCase names, again *)

Lemma has_underscore_lower_cons (c : ascii) (s : string) :
  has_underscore_lower (String c s)
  = (bool_decide (c = "_"%char) && str_head_is is_ascii_lower s)
    || has_underscore_lower s.
Proof. destruct s; cbn; [by rewrite andb_false_r|done]. Qed.

Lemma ascii_upper_of_lower (c : ascii) :
  is_ascii_lower c = true →
  is_ascii_lower (ascii_upper c) = false ∧ ascii_upper c ≠ "_"%char.
Proof.
  destruct c as [[] [] [] [] [] [] [] []]; vm_compute; intros; split; congruence.
Qed.

Lemma camelCase_cons_cons (c c' : ascii) (tl' : string) :
  camelCase (String c (String c' tl'))
  = if bool_decide (c = "_"%char) && is_ascii_lower c'
    then String (ascii_upper c') (camelCase tl')
    else String c (camelCase (String c' tl')).
Proof. reflexivity. Qed.

Lemma camelCase_head_lower (c : ascii) (tl : string) :
  str_head_is is_ascii_lower (camelCase (String c tl)) = true →
  is_ascii_lower c = true.
Proof.
  destruct tl as [|c' tl']; [done|]. rewrite camelCase_cons_cons.
  destruct (bool_decide (c = "_"%char) && is_ascii_lower c') eqn:E; [|done].
  apply andb_true_iff in E as [_ E]. cbn.
  by rewrite (proj1 (ascii_upper_of_lower c' E)).
Qed.

Lemma camelCase_no_match_left (n : nat) (s : string) :
  (String.length s ≤ n)%nat → has_underscore_lower (camelCase s) = false.
Proof.
  revert s. induction n as [|n IH]; intros s Hn.
  { destruct s; [done|]. cbn in Hn. lia. }
  destruct s as [|c tl]; [done|]. destruct tl as [|c' tl']; [done|].
  cbn in Hn. rewrite camelCase_cons_cons.
  destruct (bool_decide (c = "_"%char) && is_ascii_lower c') eqn:E.
  - apply andb_true_iff in E as [_ E].
    rewrite has_underscore_lower_cons, IH by lia.
    rewrite (bool_decide_eq_false_2 _ (proj2 (ascii_upper_of_lower c' E))).
    done.
  - rewrite has_underscore_lower_cons, IH by (cbn; lia).
    rewrite orb_false_r. apply andb_false_iff.
    apply andb_false_iff in E as [E|E]; [by left|right].
    destruct (str_head_is _ _) eqn:Eh; [|done].
    apply camelCase_head_lower in Eh. congruence.
Qed.

(** X1: the string computed by [QueryParameter.__post_init__] holds no
    underscore followed by a lower-case letter, so converting it again
    changes nothing: a [QueryParameter] constructed under a camelCase name
    has that name as its [camelName]. *)
Theorem camelCase_idempotent (s : string) (values : list PyVal)
    (default : option string) :
  has_underscore_lower (camelCase s) = false ∧
  camelCase (camelCase s) = camelCase s ∧
  Param_camelName (QueryParameter (camelCase s) values default)
  = Some (camelCase s).
Proof.
  assert (has_underscore_lower (camelCase s) = false) as Hno
    by (by apply (camelCase_no_match_left (String.length s))).
  split; [done|]. split; [by apply camelCase_no_match|].
  unfold QueryParameter. cbn. by rewrite camelCase_no_match.
Qed.

(** ** Enumeration lookups *)

(** X2: looking a member of [Resource] or of [QueryType] up by its name
    gives that member back, a successful lookup returns a member of that
    name, and no two members share a value (so neither enumeration has
    aliases); [availability] and [registration] are names of query types
    only, not of resources. *)
Theorem enum_getitem_roundtrip :
  (∀ r, Resource_enum.getitem (Resource_enum.name r) = Some r) ∧
  (∀ s r, Resource_enum.getitem s = Some r → Resource_enum.name r = s) ∧
  (∀ r1 r2, Resource_enum.value r1 = Resource_enum.value r2 → r1 = r2) ∧
  (∀ q, QueryType_enum.getitem (QueryType_enum.name q) = Some q) ∧
  (∀ s q, QueryType_enum.getitem s = Some q → QueryType_enum.name q = s) ∧
  (∀ q1 q2, QueryType_enum.name q1 = QueryType_enum.name q2 → q1 = q2) ∧
  Resource_enum.getitem (QueryType_enum.name QT_availability) = None ∧
  Resource_enum.getitem (QueryType_enum.name QT_registration) = None.
Proof.
  split; [apply getitem_name|]. split; [apply getitem_Some|]. split.
  { intros r1 r2 Hv.
    assert (Some r1 = Some r2) as [= ->]; [|done].
    rewrite <- (getitem_name r1), <- (getitem_name r2).
    unfold Resource_enum.name. by rewrite Hv. }
  split; [apply QueryType_getitem_name|]. split.
  { intros s q Hf. unfold QueryType_enum.getitem in Hf.
    apply find_some in Hf as [_ Hb]. by apply bool_decide_eq_true in Hb. }
  split; [|done].
  intros q1 q2 Hn.
  assert (Some q1 = Some q2) as [= ->]; [|done].
  by rewrite <- (QueryType_getitem_name q1), <- (QueryType_getitem_name q2), Hn.
Qed.

Lemma enum_getitem_roundtrip_witness :
  Resource_enum.name codelist = "codelist" ∧
  QueryType_enum.name QT_schema = "schema".
Proof.
  destruct enum_getitem_roundtrip as (_ & Hname & _ & _ & Hqname & _). split.
  - apply (Hname "codelist" codelist). reflexivity.
  - apply (Hqname "schema" QT_schema). reflexivity.
Defined.

(** ** More on the handle methods *)



(** X4: [AgencyParam.handle] returns the supplied value when the request
    has one, and the [id] of the source ([None] when the source has no
    such attribute) otherwise, leaving the rest of the request as it was;
    its own [default] is never used. *)
Theorem AgencyParam_handle_source_id (name : string) (values : list PyVal)
    (default : option string) (parameters : gmap string PyVal)
    (source : Source.t) :
  (∀ default',
     handle (AgencyParam name values default) parameters (Some source)
     = handle (AgencyParam name values default') parameters (Some source)) ∧
  (parameters !! name = None →
     handle (AgencyParam name [] default) parameters (Some source)
     = (parameters, Ok [(name, getattr_id source)])) ∧
  (∀ v, parameters !! name = Some v →
     handle (AgencyParam name [] default) parameters (Some source)
     = (delete name parameters, Ok [(name, v)])).
Proof.
  cbn [handle AgencyParam_handle]. unfold PathParameter_handle, setdefault.
  split; [|split].
  - intros default'. destruct (parameters !! name) as [v|] eqn:E.
    + by rewrite E.
    + by rewrite !lookup_insert_eq.
  - intros Hn. rewrite Hn, lookup_insert_eq, delete_insert_eq. cbn.
    by rewrite delete_id.
  - intros v Hv. by rewrite Hv, Hv.
Qed.

Lemma AgencyParam_handle_source_id_witness :
  let ECB := {| Source.url := "https://example.org/sdmx";
                Source.id := Some (VStr "ECB") |} in
  handle (AgencyParam "agency_id" [] None) ∅ (Some ECB)
  = (∅, Ok [("agency_id", VStr "ECB")]) ∧
  handle (AgencyParam "agency_id" [] None)
    {[ "agency_id" := VStr "OECD" ]} (Some ECB)
  = (∅, Ok [("agency_id", VStr "OECD")]).
Proof.
  intros ECB. split.
  - rewrite (proj1 (proj2 (AgencyParam_handle_source_id "agency_id" [] None
               ∅ ECB)));
      reflexivity.
  - rewrite (proj2 (proj2 (AgencyParam_handle_source_id "agency_id" [] None
               {[ "agency_id" := VStr "OECD" ]} ECB)) (VStr "OECD"));
      reflexivity.
Defined.

Lemma handle_Query_cases n vs c (ps : gmap string PyVal) :
  QueryParameter_handle n vs c ps = (ps, Ok []) ∧ ps !! n = None ∧ ps !! c = None
  ∨ QueryParameter_handle n vs c ps = (ps, Raise (ValueError (CannotGiveBoth n c)))
  ∨ ∃ k v, (k = n ∨ k = c) ∧ ps !! k = Some v ∧
           delete k ps !! n = None ∧ delete k ps !! c = None ∧
           QueryParameter_handle n vs c ps
           = (delete k ps,
              if allowed v vs then Ok [(c, v)] else Raise AssertionError).
Proof.
  destruct (ps !! n) as [vn|] eqn:En; destruct (ps !! c) as [vc|] eqn:Ec.
  - destruct (decide (n = c)) as [->|Hne].
    + right; right. exists c, vn. rewrite lookup_delete_eq.
      split; [by left|]. split; [done|]. split; [done|]. split; [done|].
      apply (handle_Query_one c vs c ps c vn); [by left|done|].
      by intros k' [->| ->].
    + right; left. by apply handle_Query_both.
  - right; right. exists n, vn. rewrite lookup_delete_eq.
    split; [by left|]. split; [done|]. split; [done|].
    split; [by rewrite lookup_delete_None; right|].
    apply (handle_Query_one n vs c ps n vn); [by left|done|].
    by intros k' [->| ->].
  - right; right. exists c, vc. rewrite lookup_delete_eq.
    split; [by right|]. split; [done|].
    split; [by rewrite lookup_delete_None; right|]. split; [done|].
    apply (handle_Query_one n vs c ps c vc); [by right|done|].
    by intros k' [->| ->].
  - left. split; [|done]. by apply handle_Query_neither.
Qed.

Lemma handle_PositiveInt_Ok n vs c (ps ps' : gmap string PyVal) frag :
  PositiveIntParam_handle n vs c ps = (ps', Ok frag) →
  (frag = [] ∧ QueryParameter_handle n vs c ps = (ps', Ok []))
  ∨ (frag = [(c, VStr c)] ∧
     ∃ v, QueryParameter_handle n vs c ps = (ps', Ok [(c, v)])).
Proof.
  unfold PositiveIntParam_handle.
  destruct (handle_Query_cases n vs c ps)
    as [(-> & _)|[->|(k & v & _ & _ & _ & _ & ->)]].
  - intros [= <- <-]. by left.
  - done.
  - destruct (allowed v vs); [|done]. cbn [od_get od_set py_str].
    rewrite !decide_True by done.
    destruct (py_le_int v 0) as [[]|]; [done| |done].
    intros [= <- <-]. right. eauto.
Qed.

(** X5: the dictionary returned by any [handle] has at most one entry; its
    key is the name for the two path classes, which always return one
    entry, and [camelName] for the two query classes, which return no
    entry only when they leave the request untouched. *)
Theorem handle_fragment_shape (p : Param) (parameters : gmap string PyVal)
    (source : option Source.t) (parameters' : gmap string PyVal)
    (fragment : odict PyVal) :
  handle p parameters source = (parameters', Ok fragment) →
  (length fragment ≤ 1)%nat ∧
  (fragment = [] → is_path_class p = false ∧ parameters' = parameters) ∧
  (∀ k v, (k, v) ∈ fragment → k = Param_out_key p).
Proof.
  assert (∀ (k0 : string) (v0 : PyVal) k v, (k, v) ∈ [(k0, v0)] → k = k0)
    as Hone.
  { intros k0 v0 k v [= -> ->]%list_elem_of_singleton. done. }
  destruct p as [n vs d|n vs d c|n vs d|n vs d c];
    cbn [handle is_path_class]; unfold Param_out_key; cbn.
  - unfold PathParameter_handle. destruct (allowed _ _); [|done].
    intros [= <- <-]. split; [cbn; lia|]. split; [done|apply Hone].
  - destruct (handle_Query_cases n vs c parameters)
      as [(-> & _)|[->|(k & v & _ & _ & _ & _ & ->)]]; [|done|].
    + intros [= <- <-]. split; [cbn; lia|]. split; [done|].
      intros k v []%elem_of_nil.
    + destruct (allowed v vs); [|done]. intros [= <- <-].
      split; [cbn; lia|]. split; [done|apply Hone].
  - destruct source as [src|]; cbn [AgencyParam_handle]; [|done].
    unfold PathParameter_handle. destruct (allowed _ _); [|done].
    intros [= <- <-]. split; [cbn; lia|]. split; [done|apply Hone].
  - intros Hh. destruct (handle_PositiveInt_Ok _ _ _ _ _ _ Hh)
      as [(-> & Hq)|(-> & v & Hq)].
    + split; [cbn; lia|]. split; [|intros k v []%elem_of_nil].
      intros _. split; [done|].
      destruct (handle_Query_cases n vs c parameters)
        as [(Hq' & _)|[Hq'|(k & v & _ & _ & _ & _ & Hq')]];
        rewrite Hq' in Hq; [by injection Hq|done|].
      by destruct (allowed v vs).
    + split; [cbn; lia|]. split; [done|apply Hone].
Qed.

Lemma handle_fragment_shape_witness :
  handle (QueryParameter "start_period" [] None)
    {[ "start_period" := VStr "2020" ]} None
  = (∅, Ok [("startPeriod", VStr "2020")]) ∧
  (length [("startPeriod", VStr "2020")] ≤ 1)%nat.
Proof.
  split; [reflexivity|].
  apply (handle_fragment_shape (QueryParameter "start_period" [] None)
           {[ "start_period" := VStr "2020" ]} None ∅).
  reflexivity.
Defined.

(** X6: after a [handle] of a query parameter ([QueryParameter] or
    [PositiveIntParam]) that returns, neither the name nor the camelCase
    alias is left in the request, and handling the same parameter again
    returns the empty dictionary and changes nothing. *)
Theorem handle_query_consumes (p : Param) (camelName : string)
    (parameters : gmap string PyVal) (source : option Source.t)
    (parameters' : gmap string PyVal) (fragment : odict PyVal) :
  Param_camelName p = Some camelName →
  handle p parameters source = (parameters', Ok fragment) →
  parameters' !! Param_name p = None ∧
  parameters' !! camelName = None ∧
  handle p parameters' source = (parameters', Ok []).
Proof.
  assert (∀ n vs c ps ps' frag,
            QueryParameter_handle n vs c ps = (ps', Ok frag) →
            ps' !! n = None ∧ ps' !! c = None) as Hq.
  { intros n vs c ps ps' frag.
    destruct (handle_Query_cases n vs c ps)
      as [(-> & Hn & Hc)|[->|(k & v & _ & _ & Hn & Hc & ->)]]; [|done|].
    - by intros [= <- <-].
    - destruct (allowed v vs); [|done]. by intros [= <- <-]. }
  destruct p as [n vs d|n vs d c|n vs d|n vs d c]; cbn; try done;
    intros [= <-] Hh.
  - destruct (Hq _ _ _ _ _ _ Hh). by rewrite handle_Query_neither.
  - assert (∃ frag, QueryParameter_handle n vs c parameters = (parameters', Ok frag))
      as [frag Hh'].
    { destruct (handle_PositiveInt_Ok _ _ _ _ _ _ Hh) as [(_ & ?)|(_ & v & ?)];
        eauto. }
    destruct (Hq _ _ _ _ _ _ Hh'). unfold PositiveIntParam_handle.
    by rewrite handle_Query_neither.
Qed.

Lemma handle_query_consumes_witness :
  handle (PositiveIntParam "last_n_observations" [] None) ∅ None = (∅, Ok []).
Proof.
  apply (handle_query_consumes (PositiveIntParam "last_n_observations" [] None)
           "lastNObservations" {[ "lastNObservations" := VInt 3 ]} None ∅
           [("lastNObservations", VStr "lastNObservations")]);
    reflexivity.
Defined.



(** ** More on the URL builder *)

(** X8: parameters given through the [params] mapping are merged with the
    keywords.  A key given both ways makes the constructor raise the
    duplicate-values [ValueError], carrying the shared keys, before any
    handler runs; without a shared key the build is the one obtained by
    passing all of them as keywords (for a mapping without a key named
    [params], which as a keyword would itself be the mapping); an empty
    mapping is the same as none. *)
Theorem URL_init_params_keyword `{URLSubclass} (source : Source.t)
    (rt : Resource) (kwargs params_dict : gmap string PyVal) :
  (dom kwargs ∩ dom params_dict ≠ ∅ →
     URL_init source rt kwargs (Some params_dict)
     = Raise (ValueError (DuplicateValues (dom kwargs ∩ dom params_dict)))) ∧
  (dom kwargs ∩ dom params_dict = ∅ → params_dict !! "params" = None →
     URL_init source rt kwargs (Some params_dict)
     = URL_init source rt (params_dict ∪ kwargs) None) ∧
  URL_init source rt kwargs (Some ∅) = URL_init source rt kwargs None.
Proof.
  assert (∀ kw : gmap string PyVal,
            URL_init source rt kw None
            = (self ← dispatch (mkURL source rt (identify_query_type rt) [] [] kw);
               if negb (bool_decide (size (_params self) = 0%nat))
               then Raise (ValueError (UnexpectedParameters (_params self)))
               else mret self)) as Hnone.
  { intros kw. rewrite URL_init_no_overlap; cbn [default].
    - by rewrite (left_id_L ∅ (∪) kw).
    - rewrite dom_empty_L. set_solver. }
  split; [|split].
  - intros Ho. unfold URL_init. cbn [default].
    by rewrite bool_decide_eq_false_2.
  - intros Ho _. by rewrite URL_init_no_overlap, Hnone.
  - rewrite Hnone, URL_init_no_overlap; cbn [default from_option id].
    + by rewrite (left_id_L ∅ (∪) kwargs).
    + rewrite dom_empty_L. set_solver.
Qed.

Lemma URL_init_params_keyword_witness :
  URL_init (H := minimal_URL) (example_source None) data
    {[ "resource_id" := VStr "EXR" ]} (Some {[ "resource_id" := VStr "ECB" ]})
  = Raise (ValueError (DuplicateValues {[ "resource_id" ]})) ∧
  URL_init (H := minimal_URL) (example_source None) data
    {[ "key" := VStr "A.B" ]} (Some {[ "resource_id" := VStr "EXR" ]})
  = URL_init (H := minimal_URL) (example_source None) data
      {[ "resource_id" := VStr "EXR"; "key" := VStr "A.B" ]} None.
Proof.
  split.
  - etrans.
    + refine (proj1 (URL_init_params_keyword (H := minimal_URL)
                       (example_source None) data
                       {[ "resource_id" := VStr "EXR" ]}
                       {[ "resource_id" := VStr "ECB" ]}) _).
      vm_compute. discriminate.
    + vm_compute. reflexivity.
  - etrans.
    + refine (proj1 (proj2 (URL_init_params_keyword (H := minimal_URL)
                       (example_source None) data {[ "key" := VStr "A.B" ]}
                       {[ "resource_id" := VStr "EXR" ]})) _ _).
      * vm_compute. reflexivity.
      * reflexivity.
    + vm_compute. reflexivity.
Defined.

(** X9: the constructor dispatches on the resource alone: [data] and
    [metadata] go to the shared data handler, [schema] to the schema
    handler, and each of the other thirty resources to
    [handle_structure]; a handler for [availability] or [registration] is
    never looked up. *)
Theorem dispatch_by_resource `{URLSubclass} (source : Source.t)
    (rt : Resource) (path query : odict PyVal) (params : gmap string PyVal) :
  let self := mkURL source rt (identify_query_type rt) path query params in
  (rt = data ∨ rt = metadata → dispatch self = handle_data self) ∧
  (rt = schema → dispatch self = handle_schema self) ∧
  (rt ≠ data → rt ≠ metadata → rt ≠ schema →
     dispatch self = handle_structure self).
Proof.
  cbn zeta. split; [|split].
  - by intros [->| ->].
  - by intros ->.
  - intros H1 H2 H3. by destruct rt.
Qed.

Lemma dispatch_by_resource_witness :
  dispatch (H := minimal_URL)
    (mkURL (example_source None) codelist (identify_query_type codelist)
       [] [] ∅)
  = Ok (mkURL (example_source None) codelist QT_structure [] [] ∅).
Proof.
  etrans.
  - apply (proj2 (proj2 (dispatch_by_resource (H := minimal_URL)
             (example_source None) codelist [] [] ∅))); discriminate.
  - reflexivity.
Defined.

Section URL_loops.
Context `{URLSubclass}.

Lemma foldl_Raise (f : URL → string → result URL) (names : list string) e :
  foldl (λ acc name, self ← acc; f self name) (Raise e) names = Raise e.
Proof. induction names as [|n names IH]; [done|]. cbn [foldl]. exact IH. Qed.

Lemma foldl_Ok_cons (f : URL → string → result URL) self n names :
  foldl (λ acc name, self ← acc; f self name) (Ok self) (n :: names)
  = foldl (λ acc name, self ← acc; f self name) (f self n) names.
Proof. reflexivity. Qed.

Lemma handle_path_param_fields self name self' :
  handle_path_param self name = Ok self' →
  (source self' = source self ∧ resource_type self' = resource_type self ∧
   query_type self' = query_type self ∧ _query self' = _query self) ∧
  is_Some (_all_parameters (KName name)).
Proof.
  unfold handle_path_param.
  destruct (_all_parameters (KName name)) as [p|]; [|done].
  destruct (handle p _ _) as [ps [frag|e]]; [|done].
  by intros [= <-].
Qed.

Lemma handle_query_param_fields self name self' :
  handle_query_param self name = Ok self' →
  (source self' = source self ∧ resource_type self' = resource_type self ∧
   query_type self' = query_type self ∧ _path self' = _path self) ∧
  is_Some (_all_parameters (KQuery name (query_type self))).
Proof.
  unfold handle_query_param.
  destruct (_all_parameters (KQuery name (query_type self))) as [p|]; [|done].
  destruct (handle p _ _) as [ps [frag|e]]; [|done].
  by intros [= <-].
Qed.

Lemma handle_path_names_fields names self self' :
  foldl (λ acc name, self ← acc; handle_path_param self name) (Ok self) names
    = Ok self' →
  (source self' = source self ∧ resource_type self' = resource_type self ∧
   query_type self' = query_type self ∧ _query self' = _query self) ∧
  Forall (λ n, is_Some (_all_parameters (KName n))) names.
Proof.
  revert self. induction names as [|n names IH]; intros self.
  { by intros [= <-]. }
  rewrite foldl_Ok_cons.
  destruct (handle_path_param self n) as [self1|e] eqn:E;
    [|by rewrite foldl_Raise].
  intros Hf. apply IH in Hf as ((? & ? & ? & ?) & ?).
  apply handle_path_param_fields in E as ((? & ? & ? & ?) & ?).
  split; [repeat split; congruence|by constructor].
Qed.

Lemma handle_query_names_fields names self self' :
  foldl (λ acc name, self ← acc; handle_query_param self name) (Ok self) names
    = Ok self' →
  (source self' = source self ∧ resource_type self' = resource_type self ∧
   query_type self' = query_type self ∧ _path self' = _path self) ∧
  Forall (λ n, is_Some (_all_parameters (KQuery n (query_type self)))) names.
Proof.
  revert self. induction names as [|n names IH]; intros self.
  { by intros [= <-]. }
  rewrite foldl_Ok_cons.
  destruct (handle_query_param self n) as [self1|e] eqn:E;
    [|by rewrite foldl_Raise].
  intros Hf. apply IH in Hf as ((? & ? & Hq & ?) & Hall).
  apply handle_query_param_fields in E as ((? & ? & Hq1 & ?) & ?).
  split; [repeat split; congruence|].
  constructor; [done|]. by rewrite <- Hq1.
Qed.
End URL_loops.



(** X11: the handlers defined in the class change only what they are
    for.  [handle_path_params], [handle_data] and [handle_schema] leave
    the query dictionary as it is, [handle_query_params] leaves the path
    as it is, and none of them changes the source, the resource type or
    the query type. *)
Theorem handlers_preserve_fields `{URLSubclass} (self self' : URL)
    (expr : string) :
  (handle_path_params self expr = Ok self' →
     source self' = source self ∧ resource_type self' = resource_type self ∧
     query_type self' = query_type self ∧ _query self' = _query self) ∧
  (handle_query_params self expr = Ok self' →
     source self' = source self ∧ resource_type self' = resource_type self ∧
     query_type self' = query_type self ∧ _path self' = _path self) ∧
  (handle_data self = Ok self' →
     source self' = source self ∧ resource_type self' = resource_type self ∧
     query_type self' = query_type self ∧ _query self' = _query self) ∧
  (handle_schema self = Ok self' →
     source self' = source self ∧ resource_type self' = resource_type self ∧
     query_type self' = query_type self ∧ _query self' = _query self).
Proof.
  split; [by intros [? _]%handle_path_names_fields|].
  split; [by intros [? _]%handle_query_names_fields|].
  split.
  - unfold handle_data. cbn.
    destruct (_params self !! "resource_id") as [v|]; [|done]. cbn.
    by destruct (delete "resource_id" (_params self) !! "key");
      intros [= <-].
  - unfold handle_schema, handle_path_params.
    by intros [? _]%handle_path_names_fields.
Qed.

Lemma handlers_preserve_fields_witness :
  ∃ self',
    handle_data (mkURL (example_source None) data QT_data []
                   [("startPeriod", VStr "2020")]
                   {[ "resource_id" := VStr "EXR" ]}) = Ok self' ∧
    _query self' = [("startPeriod", VStr "2020")].
Proof.
  eexists. split; [vm_compute; reflexivity|].
  refine (proj2 (proj2 (proj2 (proj1 (proj2 (proj2
            (handlers_preserve_fields (H := minimal_URL)
               (mkURL (example_source None) data QT_data []
                  [("startPeriod", VStr "2020")]
                  {[ "resource_id" := VStr "EXR" ]})
               _ ""))) _)))).
  vm_compute. reflexivity.
Defined.

Lemma Resource_name_fresh (rt : Resource) :
  Resource_enum.name rt ≠ "flow_ref" ∧ Resource_enum.name rt ≠ "key" ∧
  Resource_enum.name rt ≠ "context" ∧ Resource_enum.name rt ≠ "agency_id" ∧
  Resource_enum.name rt ≠ "resource_id" ∧ Resource_enum.name rt ≠ "version".
Proof. destruct rt; repeat split; discriminate. Qed.

Lemma handle_data_fresh source rt qt query (params : gmap string PyVal) v :
  params !! "resource_id" = Some v →
  handle_data (mkURL source rt qt [] query params)
  = Ok (mkURL source rt qt
          ((Resource_enum.name rt, VNone) :: ("flow_ref", v)
           :: match params !! "key" with
              | Some key => [("key", key)]
              | None => []
              end)
          query (delete "key" (delete "resource_id" params))).
Proof.
  intros Hv. destruct (Resource_name_fresh rt) as (Hf & Hk & _).
  unfold handle_data. cbn. rewrite Hv. cbn.
  rewrite lookup_delete_ne by done. rewrite (decide_False _ _ Hf).
  destruct (params !! "key") as [key|] eqn:Ek; cbn.
  - by rewrite (decide_False _ _ Hk).
  - rewrite (delete_id (delete "resource_id" params) "key"); [done|].
    by rewrite lookup_delete_ne.
Qed.

Lemma delete_key_resource_id_empty (m : gmap string PyVal) :
  delete "key" (delete "resource_id" m) = ∅ ↔
  ∀ k, is_Some (m !! k) → k = "resource_id" ∨ k = "key".
Proof.
  rewrite map_empty. split.
  - intros Hall k Hk.
    destruct (decide (k = "resource_id")) as [|H1]; [by left|].
    destruct (decide (k = "key")) as [|H2]; [by right|].
    specialize (Hall k). rewrite !lookup_delete_ne in Hall by done.
    rewrite Hall in Hk. by destruct Hk.
  - intros Hall k.
    destruct (decide (k = "key")) as [->|H2]; [apply lookup_delete_eq|].
    rewrite lookup_delete_ne by done.
    destruct (decide (k = "resource_id")) as [->|H1]; [apply lookup_delete_eq|].
    rewrite lookup_delete_ne by done.
    destruct (m !! k) eqn:E; [|done].
    destruct (Hall k) as [|]; [by eexists|done..].
Qed.

Lemma URL_init_data `{URLSubclass} source rt (kwargs : gmap string PyVal) :
  rt = data ∨ rt = metadata →
  URL_init source rt kwargs None
  = (self ← handle_data (mkURL source rt (identify_query_type rt) [] [] kwargs);
     if negb (bool_decide (size (_params self) = 0%nat))
     then Raise (ValueError (UnexpectedParameters (_params self)))
     else mret self).
Proof.
  intros Hrt. rewrite URL_init_no_overlap; cbn [default].
  - rewrite (left_id_L ∅ (∪) kwargs). by destruct Hrt as [->| ->].
  - rewrite dom_empty_L. set_solver.
Qed.

(** X12: a query for [data] or [metadata] is built exactly when
    [resource_id] is given and no keyword other than [resource_id] and
    [key] is.  The URL built has the path entries resource name (with
    [None]), [flow_ref] (the resource id) and, if given, [key], in this
    order, an empty query and no parameter left; without [resource_id] the
    constructor raises [KeyError]. *)
Theorem URL_init_data_iff `{URLSubclass} (source : Source.t) (rt : Resource)
    (kwargs : gmap string PyVal) :
  rt = data ∨ rt = metadata →
  ((∃ self, URL_init source rt kwargs None = Ok self) ↔
     is_Some (kwargs !! "resource_id") ∧
     ∀ k, is_Some (kwargs !! k) → k = "resource_id" ∨ k = "key") ∧
  (kwargs !! "resource_id" = None →
     URL_init source rt kwargs None = Raise (KeyError (KName "resource_id"))) ∧
  (∀ self, URL_init source rt kwargs None = Ok self →
     ∃ v, kwargs !! "resource_id" = Some v ∧
          self = mkURL source rt (identify_query_type rt)
                   ((Resource_enum.name rt, VNone) :: ("flow_ref", v)
                    :: match kwargs !! "key" with
                       | Some key => [("key", key)]
                       | None => []
                       end)
                   [] ∅).
Proof.
  intros Hrt. rewrite URL_init_data by done.
  destruct (kwargs !! "resource_id") as [v|] eqn:Ev.
  - rewrite (handle_data_fresh _ _ _ _ _ v Ev). cbn.
    case_bool_decide as Hsz; cbn.
    + apply map_size_empty_iff in Hsz. rewrite Hsz.
      pose proof (proj1 (delete_key_resource_id_empty kwargs) Hsz) as Hall.
      split; [|split]; [|done|].
      * split; [by intros _; split|by eexists].
      * intros self [= <-]. by exists v.
    + split; [|split]; [|done..].
      split; [by intros [? ?]|]. intros [_ Hall]. destruct Hsz.
      apply map_size_empty_iff.
      exact (proj2 (delete_key_resource_id_empty kwargs) Hall).
  - assert (handle_data (mkURL source rt (identify_query_type rt) [] [] kwargs)
            = Raise (KeyError (KName "resource_id"))) as ->.
    { unfold handle_data. cbn. by rewrite Ev. }
    cbn. split; [|split]; [|done..].
    split; [by intros [? ?]|]. by intros [[? ?] _].
Qed.

Lemma URL_init_data_iff_witness :
  ∃ self,
    URL_init (H := minimal_URL) (example_source None) metadata
      {[ "resource_id" := VStr "EXR"; "key" := VStr "A.B" ]} None = Ok self.
Proof.
  refine (proj2 (proj1 (URL_init_data_iff (H := minimal_URL)
            (example_source None) metadata
            {[ "resource_id" := VStr "EXR"; "key" := VStr "A.B" ]} _)) _).
  - right. reflexivity.
  - split; [by eexists|].
    intros k Hk.
    destruct (decide (k = "resource_id")) as [|H1]; [by left|].
    destruct (decide (k = "key")) as [|H2]; [by right|].
    rewrite lookup_insert_ne, lookup_singleton_ne in Hk by done.
    by destruct Hk.
Defined.

Lemma handle_path_class_fragment (p : Param) (ps : gmap string PyVal) source
    (ps' : gmap string PyVal) frag :
  is_path_class p = true → handle p ps source = (ps', Ok frag) →
  ∃ v, frag = [(Param_name p, v)].
Proof.
  destruct p as [n vs d|n vs d c|n vs d|n vs d c]; try done; intros _; cbn.
  - unfold PathParameter_handle. destruct (allowed _ _); [|done].
    intros [= <- <-]. by eexists.
  - destruct source; cbn; [|done].
    unfold PathParameter_handle. destruct (allowed _ _); [|done].
    intros [= <- <-]. by eexists.
Qed.

Lemma handle_path_param_path `{URLSubclass} self n self' :
  (∃ p, _all_parameters (KName n) = Some p ∧
        is_path_class p = true ∧ Param_name p = n) →
  handle_path_param self n = Ok self' →
  ∃ v, _path self' = od_set n v (_path self).
Proof.
  intros (p & Hp & Hc & Hn). unfold handle_path_param. rewrite Hp.
  destruct (handle p _ _) as [ps [frag|e]] eqn:E; [|done].
  destruct (handle_path_class_fragment _ _ _ _ _ Hc E) as [v ->].
  rewrite Hn. intros [= <-]. by exists v.
Qed.

(** X13: when the four names [context], [agency_id], [resource_id] and
    [version] are registered as path parameters of these names, a schema
    handler that returns, started on an empty path, has built the path
    entries in the fixed order resource name, [context], [agency_id],
    [resource_id], [version], the first with value [None]. *)
Theorem handle_schema_path_order `{URLSubclass} (self self' : URL) :
  (∀ n, n ∈ ["context"; "agency_id"; "resource_id"; "version"] →
     ∃ p, _all_parameters (KName n) = Some p ∧
          is_path_class p = true ∧ Param_name p = n) →
  _path self = [] →
  handle_schema self = Ok self' →
  od_keys (_path self')
  = [ Resource_enum.name (resource_type self);
      "context"; "agency_id"; "resource_id"; "version" ] ∧
  od_get (Resource_enum.name (resource_type self)) (_path self') = Some VNone.
Proof.
  intros Hreg Hpath. unfold handle_schema, handle_path_params.
  change (str_split "/"%char "context/agency_id/resource_id/version")
    with ["context"; "agency_id"; "resource_id"; "version"].
  rewrite Hpath. cbn [od_update fold_left fst snd od_set].
  set (self0 := set_path self _).
  destruct (Resource_name_fresh (resource_type self))
    as (_ & _ & Hc & Ha & Hr & Hv).
  rewrite foldl_Ok_cons.
  destruct (handle_path_param self0 "context") as [s1|] eqn:E1;
    [|by rewrite foldl_Raise].
  rewrite foldl_Ok_cons.
  destruct (handle_path_param s1 "agency_id") as [s2|] eqn:E2;
    [|by rewrite foldl_Raise].
  rewrite foldl_Ok_cons.
  destruct (handle_path_param s2 "resource_id") as [s3|] eqn:E3;
    [|by rewrite foldl_Raise].
  rewrite foldl_Ok_cons.
  destruct (handle_path_param s3 "version") as [s4|] eqn:E4;
    [|by rewrite foldl_Raise].
  intros [= <-].
  apply handle_path_param_path in E1 as [v1 P1]; [|apply Hreg; set_solver].
  apply handle_path_param_path in E2 as [v2 P2]; [|apply Hreg; set_solver].
  apply handle_path_param_path in E3 as [v3 P3]; [|apply Hreg; set_solver].
  apply handle_path_param_path in E4 as [v4 P4]; [|apply Hreg; set_solver].
  rewrite P4, P3, P2, P1. subst self0. cbn [_path set_path od_set].
  rewrite (decide_False _ _ Hc). cbn [od_set].
  rewrite (decide_False _ _ Ha), decide_False by done. cbn [od_set].
  rewrite (decide_False _ _ Hr), !decide_False by done. cbn [od_set].
  rewrite (decide_False _ _ Hv), !decide_False by done. cbn.
  by rewrite decide_True.
Qed.

Lemma handle_schema_path_order_witness :
  ∃ self',
    handle_schema (H := schema_URL)
      (mkURL (example_source (Some (VStr "ECB"))) datastructure QT_schema [] []
         {[ "version" := VStr "1.0"; "resource_id" := VStr "ECB_EXR1" ]})
    = Ok self' ∧
    od_keys (_path self')
    = ["datastructure"; "context"; "agency_id"; "resource_id"; "version"] ∧
    path_segments (_path self')
    = Ok ["datastructure"; "context"; "ECB"; "ECB_EXR1"; "1.0"].
Proof.
  eexists. split; [vm_compute; reflexivity|]. split; [|reflexivity].
  refine (proj1 (handle_schema_path_order (H := schema_URL)
            (mkURL (example_source (Some (VStr "ECB"))) datastructure
               QT_schema [] []
               {[ "version" := VStr "1.0"; "resource_id" := VStr "ECB_EXR1" ]})
            _ _ _ _)).
  - intros n Hn. repeat (apply elem_of_cons in Hn as [->|Hn]);
      [eexists; split; [reflexivity|split; reflexivity]..|].
    by apply elem_of_nil in Hn.
  - reflexivity.
  - vm_compute. reflexivity.
Defined.







Lemma str_join_nonempty (sep x : string) (l : list string) :
  x ≠ "" → str_join sep (x :: l) ≠ "".
Proof.
  unfold str_join. destruct x as [|c x]; [done|].
  intros _. destruct l; cbn [String.concat]; [done|].
  rewrite append_cons. discriminate.
Qed.

(** X16: [join] appends a query string exactly when the query dictionary
    is not empty: the URL is then the URL for the same path without query,
    followed by a question mark and the [key=value] pairs in insertion
    order, separated by ampersands. *)
Theorem join_query (self : URL) (query : odict PyVal) (url0 : string) :
  query ≠ [] →
  join (set_query self []) = Ok url0 →
  join (set_query self query)
  = Ok (url0 +:+ "?"
        +:+ str_join "&" (map (λ kv, kv.1 +:+ "=" +:+ py_str kv.2) query)).
Proof.
  intros Hq. unfold join. cbn [set_query source _path _query].
  destruct (urlsplit (Source.url (source self)))
    as [[[[scheme netloc] path] q0] f0].
  destruct (path_segments (_path self)) as [segs|e]; [|done]. cbn.
  intros [= <-]. f_equal.
  set (qs := str_join "&" _).
  assert (qs ≠ "") as Hqs.
  { subst qs. destruct query as [|[k v] query]; [done|]. cbn [map].
    apply str_join_nonempty. cbn [fst]. destruct k; [|done].
    discriminate. }
  unfold urlunsplit. cbn zeta.
  rewrite (bool_decide_eq_false_2 (qs = "")) by done.
  rewrite !(bool_decide_eq_true_2 ("" = "")) by done.
  reflexivity.
Qed.

Lemma join_query_witness :
  join (mkURL (example_source None) data QT_data
          [("data", VNone); ("flow_ref", VStr "EXR")]
          [("startPeriod", VStr "2020"); ("firstNObservations", VInt 3)] ∅)
  = Ok "https://example.org/sdmx/data/EXR?startPeriod=2020&firstNObservations=3".
Proof.
  etrans.
  - apply (join_query
             (mkURL (example_source None) data QT_data
                [("data", VNone); ("flow_ref", VStr "EXR")] [] ∅)
             [("startPeriod", VStr "2020"); ("firstNObservations", VInt 3)]
             "https://example.org/sdmx/data/EXR").
    + discriminate.
    + reflexivity.
  - vm_compute. reflexivity.
Defined.



